(** * parse-jasome: the metric extractor and reporter of [main.py]

    A shallow embedding of [parse_jasome_xml] (with its inner
    [extract_method_metrics]), [display_results] and [main], and the
    properties of the walk, the aggregation and the report.

    The tree that [xmltodict.parse] returns is a Python value built from
    [dict], [list], [str] and [None]; the walk tests its shape with
    [isinstance], so the embedding keeps all four shapes and gives every
    Python operation of the source ([in], subscription, [.get], [==],
    [float]) its behaviour on each of them, exceptions included.

    Outside the embedding: the command line, the interpreter's recursion
    limit, and the bytes of a formatted number, of an exception message
    and of a trace, which the output keeps as constructors. *)

From Stdlib Require Import String Ascii List Bool Arith ZArith Lia.
From Stdlib Require Import DecimalString.
Import ListNotations.

Local Open Scope string_scope.
Local Open Scope list_scope.

(** ** Python values of the parsed report *)

Unset Elimination Schemes.

(** A value of the tree: [None] (an empty element), a [str] (an attribute
    or the text of an element), a [dict] in insertion order, a [list]. *)
Inductive node : Type :=
| PNone : node
| PStr (s : string) : node
| PDict (items : list (string * node)) : node
| PList (elems : list node) : node.

Set Elimination Schemes.

(** The exceptions the run can raise below the handler of [main]. *)
Inductive exn : Type :=
| TypeError                      (* [in] on None, [str]/[list] subscripted by a str, [float] of a non-str *)
| AttributeError                 (* [.get] on a value that is not a dict *)
| KeyError (k : string)          (* subscription of a dict by a missing key *)
| ValueError (s : string)        (* [float(s)] on a str that is not a number *)
| ZeroDivisionError              (* [sum(xs) / len(xs)] on an empty list *)
| LoadError (what : string).     (* raised by [open], [read] or [xmltodict.parse] *)

(** A computation that returns or raises. *)
Inductive result (A : Type) : Type :=
| Ok (a : A)
| Raise (e : exn).

Arguments Ok {A} a.
Arguments Raise {A} e.

Definition bind {A B : Type} (c : result A) (k : A -> result B) : result B :=
  match c with
  | Ok a => k a
  | Raise e => Raise e
  end.

Notation "x <- c ;; k" := (bind c (fun x => k))
  (at level 61, c at next level, right associativity).

(** A [for] loop whose body updates a state and may raise. *)
Definition for_each {A S : Type} (body : A -> S -> result S)
  : list A -> S -> result S :=
  fix loop (l : list A) (s : S) : result S :=
    match l with
    | [] => Ok s
    | a :: l' => s' <- body a s ;; loop l' s'
    end.

(** ** The library below the program

    [float], [sum], [/], [min], [max], [statistics.median] and
    [statistics.stdev] are Python's, not the repository's: the program is
    embedded over an interface for them.  The [.2f] format is kept as a
    constructor of the output. *)
Class Runtime : Type := {
  float : Type;
  (** [float(s)] on a str: [None] when Python raises [ValueError]. *)
  float_of_str : string -> option float;
  (** [sum(xs)] of a non-empty list of floats. *)
  fsum : list float -> float;
  (** [x / n] of a float by a positive [len]. *)
  fdiv : float -> nat -> float;
  (** [min(xs)], [max(xs)], [statistics.median(xs)] of a non-empty list. *)
  fmin : list float -> float;
  fmax : list float -> float;
  median : list float -> float;
  (** [statistics.stdev(xs)] of a list of at least two values. *)
  stdev : list float -> result float;
}.

(** A number of the results summary: the initial [0] or a computed float. *)
Inductive number `{Runtime} : Type :=
| PyInt (z : Z)
| PyFloat (f : float).

Arguments PyInt {_} z.
Arguments PyFloat {_} f.

(** ** Python operations on tree values *)

Definition isinstance_list (v : node) : bool :=
  match v with PList _ => true | _ => false end.

Definition isinstance_dict (v : node) : bool :=
  match v with PDict _ => true | _ => false end.

(** [k in d] and [d[k]] on the items of a dict. *)
Definition dict_lookup (k : string) (items : list (string * node)) : option node :=
  match find (fun kv => String.eqb k (fst kv)) items with
  | Some kv => Some (snd kv)
  | None => None
  end.

Definition dict_has (k : string) (items : list (string * node)) : bool :=
  match dict_lookup k items with Some _ => true | None => false end.

(** [needle in s] on two strs: substring test. *)
Fixpoint is_substring (needle s : string) : bool :=
  prefix needle s ||
  match s with
  | EmptyString => false
  | String _ s' => is_substring needle s'
  end.

(** [v == k] for a str literal [k]. *)
Definition str_eq (v : node) (k : string) : bool :=
  match v with
  | PStr s => String.eqb s k
  | _ => false
  end.

(** [k in v] for a str literal [k]. *)
Definition py_contains (k : string) (v : node) : result bool :=
  match v with
  | PDict items => Ok (dict_has k items)
  | PStr s => Ok (is_substring k s)
  | PList elems => Ok (existsb (fun x => str_eq x k) elems)
  | PNone => Raise TypeError
  end.

(** [v[k]] for a str literal [k]. *)
Definition py_getitem (v : node) (k : string) : result node :=
  match v with
  | PDict items =>
      match dict_lookup k items with
      | Some x => Ok x
      | None => Raise (KeyError k)
      end
  | _ => Raise TypeError
  end.

(** [v.get(k, default)]. *)
Definition py_get (v : node) (k : string) (default : node) : result node :=
  match v with
  | PDict items =>
      match dict_lookup k items with
      | Some x => Ok x
      | None => Ok default
      end
  | _ => Raise AttributeError
  end.

(** [float(v)]. *)
Definition py_float `{Runtime} (v : node) : result float :=
  match v with
  | PStr s =>
      match float_of_str s with
      | Some f => Ok f
      | None => Raise (ValueError s)
      end
  | _ => Raise TypeError
  end.

(** [if not isinstance(v, list): v = [v]]. *)
Definition as_list (v : node) : list node :=
  match v with
  | PList elems => elems
  | _ => [v]
  end.

(** ** [parse_jasome_xml] *)

(** The dict [metrics] of four lists, in the order of its keys. *)
Record metrics `{Runtime} : Type := mkMetrics {
  mccabe_cyclomatic_complexity : list float;
  system_complexity : list float;
  data_complexity : list float;
  total_lines_of_code : list float;
}.

Arguments mkMetrics {_} _ _ _ _.

Definition empty_metrics `{Runtime} : metrics := mkMetrics [] [] [] [].

(** [metrics[key].append(v)] for each of the four keys. *)
Definition append_vg `{Runtime} (v : float) (m : metrics) : metrics :=
  mkMetrics (mccabe_cyclomatic_complexity m ++ [v]) (system_complexity m)
            (data_complexity m) (total_lines_of_code m).

Definition append_ci `{Runtime} (v : float) (m : metrics) : metrics :=
  mkMetrics (mccabe_cyclomatic_complexity m) (system_complexity m ++ [v])
            (data_complexity m) (total_lines_of_code m).

Definition append_di `{Runtime} (v : float) (m : metrics) : metrics :=
  mkMetrics (mccabe_cyclomatic_complexity m) (system_complexity m)
            (data_complexity m ++ [v]) (total_lines_of_code m).

Definition append_tloc `{Runtime} (v : float) (m : metrics) : metrics :=
  mkMetrics (mccabe_cyclomatic_complexity m) (system_complexity m)
            (data_complexity m) (total_lines_of_code m ++ [v]).

(** The body of [for metric in method_metrics] (lines 41-59). *)
Definition process_metric `{Runtime} (metric : node) (m : metrics) : result metrics :=
  metric_name <- py_get metric "@name" (PStr "") ;;
  metric_value <- py_get metric "@value" (PStr "0") ;;
  if str_eq metric_name "VG" then
    v <- py_float metric_value ;; Ok (append_vg v m)
  else if str_eq metric_name "Ci" then
    v <- py_float metric_value ;; Ok (append_ci v m)
  else if str_eq metric_name "Di" then
    v <- py_float metric_value ;; Ok (append_di v m)
  else if str_eq metric_name "TLOC" then
    v <- py_float metric_value ;; Ok (append_tloc v m)
  else Ok m.

(** The body of [for method in methods] (lines 34-59). *)
Definition process_method `{Runtime} (method : node) (m : metrics) : result metrics :=
  has_metrics <- py_contains "Metrics" method ;;
  if has_metrics then
    metrics_node <- py_getitem method "Metrics" ;;
    has_metric <- py_contains "Metric" metrics_node ;;
    if has_metric then
      method_metrics <- py_getitem metrics_node "Metric" ;;
      for_each process_metric (as_list method_metrics) m
    else Ok m
  else Ok m.

(** Lines 26-59: the [Method] key of a dict node. *)
Definition process_methods `{Runtime} (items : list (string * node)) (m : metrics)
  : result metrics :=
  match dict_lookup "Method" items with
  | Some methods => for_each process_method (as_list methods) m
  | None => Ok m
  end.

(** The body of [for key, value in node.items()] (lines 63-64), for the
    walk [extract] it calls. *)
Definition walk_value `{Runtime} (extract : node -> metrics -> result metrics)
  (kv : string * node) (s : metrics) : result metrics :=
  let (key, value) := kv in
  match value with
  | PDict _ | PList _ => extract value s
  | _ => Ok s
  end.

(** [extract_method_metrics(node)], the state [metrics] passed through. *)
Fixpoint extract_method_metrics `{Runtime} (n : node) (m : metrics) {struct n}
  : result metrics :=
  match n with
  | PDict items =>
      m1 <- process_methods items m ;;
      for_each (walk_value extract_method_metrics) items m1
  | PList elems =>
      for_each extract_method_metrics elems m
  | _ => Ok m
  end.

(** The dict [results] (lines 74-80). *)
Record results `{Runtime} : Type := mkResults {
  total_methods : nat;
  avg_mccabe_cyclomatic_complexity : number;
  avg_system_complexity : number;
  avg_data_complexity : number;
  avg_total_lines_of_code : number;
}.

Arguments mkResults {_} _ _ _ _ _.

(** [sum(xs) / len(xs)]: on an empty list [0 / 0] raises. *)
Definition average `{Runtime} (xs : list float) : result number :=
  match xs with
  | [] => Raise ZeroDivisionError
  | _ :: _ => Ok (PyFloat (fdiv (fsum xs) (length xs)))
  end.

(** Lines 74-98: the summary, the four averages computed in the order of
    the source when [total_methods > 0]. *)
Definition summarize `{Runtime} (m : metrics) : result results :=
  let total := length (mccabe_cyclomatic_complexity m) in
  if (0 <? total)%nat then
    a_vg <- average (mccabe_cyclomatic_complexity m) ;;
    a_ci <- average (system_complexity m) ;;
    a_di <- average (data_complexity m) ;;
    a_tloc <- average (total_lines_of_code m) ;;
    Ok (mkResults total a_vg a_ci a_di a_tloc)
  else
    Ok (mkResults total (PyInt 0) (PyInt 0) (PyInt 0) (PyInt 0)).

(** The summary of a run that found nothing: lines 75-79 as written. *)
Definition zero_results `{Runtime} : results :=
  mkResults 0 (PyInt 0) (PyInt 0) (PyInt 0) (PyInt 0).

(** What the run finds outside the program: whether the path exists, and
    what lines 8-11 ([open], [read], [xmltodict.parse]) give for it. *)
Record world : Type := mkWorld {
  path_exists : string -> bool;
  load : string -> result node;
}.

Definition parse_jasome_xml `{Runtime} (w : world) (xml_file_path : string)
  : result (results * metrics) :=
  data <- load w xml_file_path ;;
  m <- extract_method_metrics data empty_metrics ;;
  r <- summarize m ;;
  Ok (r, m).

(** ** [display_results] *)

(** What the program writes. *)
Inductive output `{Runtime} : Type :=
| Print (s : string)             (* [print(s)] *)
| PrintNumber (label : string) (x : number)
                                 (* [print(f"{label}{x:.2f}")] *)
| PrintError (e : exn)           (* [print(f"Error processing XML file: {e}")] *)
| PrintExc (e : exn).            (* [traceback.print_exc()], on standard error *)

Arguments Print {_} s.
Arguments PrintNumber {_} label x.
Arguments PrintError {_} e.
Arguments PrintExc {_} e.

Definition nl : string := String "010"%char EmptyString.

(** [s * n]. *)
Fixpoint str_mul (s : string) (n : nat) : string :=
  match n with
  | O => EmptyString
  | S n' => s ++ str_mul s n'
  end.

(** [str(n)] of a length. *)
Definition str_of_nat (n : nat) : string := NilZero.string_of_uint (Nat.to_uint n).

Definition is_lower (c : ascii) : bool :=
  ((97 <=? nat_of_ascii c) && (nat_of_ascii c <=? 122))%nat.

Definition is_upper (c : ascii) : bool :=
  ((65 <=? nat_of_ascii c) && (nat_of_ascii c <=? 90))%nat.

Definition to_upper (c : ascii) : ascii :=
  if is_lower c then ascii_of_nat (nat_of_ascii c - 32) else c.

Definition to_lower (c : ascii) : ascii :=
  if is_upper c then ascii_of_nat (nat_of_ascii c + 32) else c.

(** [s.replace('_', ' ')]. *)
Fixpoint replace_underscore (s : string) : string :=
  match s with
  | EmptyString => EmptyString
  | String c s' =>
      String (if Ascii.eqb c "_"%char then " "%char else c) (replace_underscore s')
  end.

(** [s.title()] on ASCII: a letter after a letter is lowered, any other
    letter is raised. *)
Fixpoint title_from (previous_is_cased : bool) (s : string) : string :=
  match s with
  | EmptyString => EmptyString
  | String c s' =>
      String (if previous_is_cased then to_lower c else to_upper c)
             (title_from (is_lower c || is_upper c) s')
  end.

Definition title (s : string) : string := title_from false s.

(** The body of [for metric_name, metric_values in metrics.items()]
    (lines 122-129): what it prints, and the exception that stopped it. *)
Definition display_metric `{Runtime} (metric_name : string) (metric_values : list float)
  : list output * option exn :=
  match metric_values with
  | [] => ([], None)
  | _ :: _ =>
      let readable_name := title (replace_underscore metric_name) in
      let head :=
        [ Print (nl ++ readable_name ++ ":");
          PrintNumber "  Min:    " (PyFloat (fmin metric_values));
          PrintNumber "  Max:    " (PyFloat (fmax metric_values));
          PrintNumber "  Median: " (PyFloat (median metric_values)) ] in
      if (1 <? length metric_values)%nat then
        match stdev metric_values with
        | Ok sd => (head ++ [PrintNumber "  StdDev: " (PyFloat sd)], None)
        | Raise e => (head, Some e)
        end
      else (head ++ [Print "  StdDev: N/A"], None)
  end.

(** A sequence of printing steps: the later ones run when the earlier ones
    did not raise. *)
Fixpoint display_all `{Runtime} (steps : list (string * list float))
  : list output * option exn :=
  match steps with
  | [] => ([], None)
  | (name, values) :: rest =>
      match display_metric name values with
      | (out, Some e) => (out, Some e)
      | (out, None) =>
          let (out', r) := display_all rest in (out ++ out', r)
      end
  end.

(** [metrics.items()]. *)
Definition metrics_items `{Runtime} (m : metrics) : list (string * list float) :=
  [ ("mccabe_cyclomatic_complexity", mccabe_cyclomatic_complexity m);
    ("system_complexity", system_complexity m);
    ("data_complexity", data_complexity m);
    ("total_lines_of_code", total_lines_of_code m) ].

(** Lines 103-114. *)
Definition display_header `{Runtime} (r : results) : list output :=
  [ Print (str_mul "=" 60);
    Print "JASOME METRICS ANALYSIS - AVERAGE ACROSS METHODS";
    Print (str_mul "=" 60);
    Print (nl ++ "Total Methods Analyzed: " ++ str_of_nat (total_methods r));
    Print (nl ++ str_mul "-" 60);
    Print "AVERAGE METRICS:";
    Print (str_mul "-" 60);
    PrintNumber "McCabe Cyclomatic Complexity: " (avg_mccabe_cyclomatic_complexity r);
    PrintNumber "System Complexity:            " (avg_system_complexity r);
    PrintNumber "Data Complexity:              " (avg_data_complexity r);
    PrintNumber "Total Lines of Code (TLOC):   " (avg_total_lines_of_code r);
    Print (str_mul "=" 60) ].

(** Lines 117-119: the heading of the additional statistics. *)
Definition additional_heading `{Runtime} : list output :=
  [ Print (nl ++ "ADDITIONAL STATISTICS:"); Print (str_mul "-" 60) ].

Definition display_results `{Runtime} (r : results) (m : metrics)
  : list output * option exn :=
  if (0 <? total_methods r)%nat then
    let (out, e) := display_all (metrics_items m) in
    (display_header r ++ additional_heading ++ out, e)
  else (display_header r, None).

(** ** [main] *)

(** How [main] ends. The script calls it last, so the process exits with
    status 0 when it returns and 1 when an exception leaves it. *)
Inductive outcome : Type :=
| Returned
| Raised (e : exn).

Definition exit_status (o : outcome) : Z :=
  match o with
  | Returned => 0
  | Raised _ => 1
  end.

(** Lines 147-150. *)
Definition usage_hint `{Runtime} (xml_file : string) : list output :=
  [ Print ("Error: XML file '" ++ xml_file ++ "' not found!" ++ nl);
    Print "Example usage:";
    Print "  python metrics.py output.xml";
    Print ("  python metrics.py /path/to/output.xml" ++ nl) ].

(** Lines 157-160: the handler of [except Exception as e]. *)
Definition error_report `{Runtime} (e : exn) : list output :=
  [ PrintError e; PrintExc e ].

(** [main()], for [xml_file = Path(args.xml)]. *)
Definition main `{Runtime} (w : world) (xml_file : string) : list output * outcome :=
  if negb (path_exists w xml_file) then (usage_hint xml_file, Returned)
  else
    match parse_jasome_xml w xml_file with
    | Raise e => (error_report e, Returned)
    | Ok (r, m) =>
        match display_results r m with
        | (out, None) => (out, Returned)
        | (out, Some e) => (out ++ error_report e, Returned)
        end
    end.

(** ** Vocabulary of the properties *)

(** The four recognised metric codes and the list each one feeds. *)
Inductive code : Type := VG | Ci | Di | TLOC.

Definition code_of_name (name : string) : option code :=
  if String.eqb name "VG" then Some VG
  else if String.eqb name "Ci" then Some Ci
  else if String.eqb name "Di" then Some Di
  else if String.eqb name "TLOC" then Some TLOC
  else None.

Definition seq_of `{Runtime} (c : code) (m : metrics) : list float :=
  match c with
  | VG => mccabe_cyclomatic_complexity m
  | Ci => system_complexity m
  | Di => data_complexity m
  | TLOC => total_lines_of_code m
  end.

Definition append_to `{Runtime} (c : code) (v : float) (m : metrics) : metrics :=
  match c with
  | VG => append_vg v m
  | Ci => append_ci v m
  | Di => append_di v m
  | TLOC => append_tloc v m
  end.

(** The four lists of [d] put after the four lists of [m]. *)
Definition madd `{Runtime} (m d : metrics) : metrics :=
  mkMetrics (mccabe_cyclomatic_complexity m ++ mccabe_cyclomatic_complexity d)
            (system_complexity m ++ system_complexity d)
            (data_complexity m ++ data_complexity d)
            (total_lines_of_code m ++ total_lines_of_code d).

(** A result computed from empty lists, replayed after the lists of [m]. *)
Definition shift `{Runtime} (m : metrics) (r : result metrics) : result metrics :=
  match r with
  | Ok d => Ok (madd m d)
  | Raise e => Raise e
  end.

(** [f a] started on [m] does what it does on empty lists, after [m]. *)
Definition framed `{Runtime} {A : Type} (f : A -> metrics -> result metrics) (a : A) : Prop :=
  forall m, f a m = shift m (f a empty_metrics).

(** No dict of the tree has a [Method] key. *)
Fixpoint no_method (n : node) : bool :=
  match n with
  | PDict items =>
      negb (dict_has "Method" items) &&
      forallb (fun kv : string * node => let (_, value) := kv in no_method value) items
  | PList elems => forallb no_method elems
  | _ => true
  end.

(** The number of method entries the walk iterates over: for every dict
    with a [Method] key, the length of its normalised value. *)
Fixpoint count_methods (n : node) : nat :=
  match n with
  | PDict items =>
      match dict_lookup "Method" items with
      | Some methods => length (as_list methods)
      | None => 0
      end +
      fold_right (fun (kv : string * node) acc => let (_, value) := kv in count_methods value + acc)
                 0 items
  | PList elems => fold_right (fun item acc => count_methods item + acc) 0 elems
  | _ => 0
  end.

(** [visits t d]: the walk started at [t] calls itself on [d]. *)
Inductive visits : node -> node -> Prop :=
| visits_here (t : node) : visits t t
| visits_value (items : list (string * node)) (key : string) (value d : node) :
    In (key, value) items ->
    isinstance_dict value || isinstance_list value = true ->
    visits value d ->
    visits (PDict items) d
| visits_item (elems : list node) (item d : node) :
    In item elems ->
    visits item d ->
    visits (PList elems) d.

(** [method] is one of the methods of the dict [d]. *)
Definition method_of (d method : node) : Prop :=
  exists items methods,
    d = PDict items /\
    dict_lookup "Method" items = Some methods /\
    In method (as_list methods).

(** [entry] is one of the metric entries of [method]. *)
Definition metric_of (method entry : node) : Prop :=
  exists metrics_node method_metrics,
    py_getitem method "Metrics" = Ok metrics_node /\
    py_getitem metrics_node "Metric" = Ok method_metrics /\
    In entry (as_list method_metrics).


(** The output holds a formatted number. *)
Definition prints_number `{Runtime} (out : list output) : Prop :=
  exists label x, In (PrintNumber label x) out.

(** [entry] carries the recognised code [c] and the value [v]. *)
Definition entry_has (entry : node) (c : code) (v : node) : Prop :=
  exists name,
    py_get entry "@name" (PStr "") = Ok (PStr name) /\
    code_of_name name = Some c /\
    py_get entry "@value" (PStr "0") = Ok v.

(** A metric entry the dispatch of lines 44-59 drops: a dict whose
    [@name], or the default [''], is none of the four codes. *)
Definition unrecognized (entry : node) : bool :=
  match entry with
  | PDict items =>
      match dict_lookup "@name" items with
      | Some (PStr name) =>
          match code_of_name name with Some _ => false | None => true end
      | Some _ => true
      | None => true
      end
  | _ => false
  end.

Definition key_is (key k : string) : bool := String.eqb key k.

(** A dict rebuilt with each value replaced, keys and order kept. *)
Definition map_values (g : string -> node -> node) (items : list (string * node))
  : list (string * node) :=
  map (fun kv : string * node => let (key, value) := kv in (key, g key value)) items.

(** [v] in a list of its own when it is a scalar under [Method] or [Metric]. *)
Definition wrap_under (key : string) (value wrapped : node) : node :=
  if (key_is key "Method" || key_is key "Metric") && negb (isinstance_list value)
  then PList [wrapped]
  else wrapped.

(** The tree with every scalar [Method] and [Metric] value wrapped in a
    one-element list. *)
Fixpoint wrap_singles (n : node) : node :=
  match n with
  | PDict items =>
      PDict (map_values (fun key value => wrap_under key value (wrap_singles value)) items)
  | PList elems => PList (map wrap_singles elems)
  | _ => n
  end.

(** What [wrap_singles] puts under [key] in place of [value]. *)
Definition wrap_value (key : string) (value : node) : node :=
  wrap_under key value (wrap_singles value).

Definition recognized_or_other (entry : node) : bool := negb (unrecognized entry).

(** The tree with the unrecognised entries filtered out of every [Metric]
    value, the value left as the list of the others: an intermediate tree,
    of which [remove_unrecognized] below restores the shapes. *)
Fixpoint prune_entries (n : node) : node :=
  match n with
  | PDict items =>
      PDict (map_values
               (fun key value =>
                  if key_is key "Metric"
                  then PList (filter recognized_or_other
                                match value with
                                | PList elems => map prune_entries elems
                                | _ => [prune_entries value]
                                end)
                  else prune_entries value)
               items)
  | PList elems => PList (map prune_entries elems)
  | _ => n
  end.

(** What [prune_entries] puts under [key] in place of [value]. *)
Definition prune_in_value (key : string) (value : node) : node :=
  if key_is key "Metric"
  then PList (filter recognized_or_other (map prune_entries (as_list value)))
  else prune_entries value.

(** The entries of a list that are kept, each rewritten by [f]. *)
Definition map_kept (f : node -> node) : list node -> list node :=
  fix go (l : list node) : list node :=
    match l with
    | [] => []
    | e :: l' => if unrecognized e then go l' else f e :: go l'
    end.

(** What [xmltodict.parse] gives for the [Metric] children that remain in
    an element: no key when none remains, the entry itself when one does,
    their list otherwise. *)
Definition kept_value (key : string) (remaining : list node) : list (string * node) :=
  match remaining with
  | [] => []
  | [x] => [(key, if isinstance_list x then PList [x] else x)]
  | _ :: _ :: _ => [(key, PList remaining)]
  end.

(** What [xmltodict.parse] gives for an element that lost children: [None]
    when it has nothing left, its text when it has only text left. *)
Definition restore_shape (before after : list (string * node)) : node :=
  if (length after <? length before)%nat then
    match after with
    | [] => PNone
    | [(key, PStr s)] => if key_is key "#text" then PStr s else PDict after
    | _ => PDict after
    end
  else PDict after.

(** One item of a dict with the unrecognised [Metric] children removed by
    the rewriting [f] of the subtrees. *)
Definition remove_item (f : node -> node) (kv : string * node) : list (string * node) :=
  let (key, value) := kv in
  if key_is key "Metric"
  then kept_value key
         match value with
         | PList elems => map_kept f elems
         | _ => if unrecognized value then [] else [f value]
         end
  else [(key, f value)].

(** The parsed tree of the document with every unrecognised [Metric]
    element removed. *)
Fixpoint remove_unrecognized (n : node) : node :=
  match n with
  | PDict items => restore_shape items (flat_map (remove_item remove_unrecognized) items)
  | PList elems => PList (map remove_unrecognized elems)
  | _ => n
  end.

(** The removal leaves an entry under every [Metric] key: at each such
    key, in the tree and in the entries that are kept, one entry at least
    is not unrecognised. *)
Fixpoint keeps_an_entry (n : node) : bool :=
  match n with
  | PDict items =>
      forallb (fun kv : string * node =>
                 let (key, value) := kv in
                 if key_is key "Metric"
                 then match value with
                      | PList elems =>
                          existsb recognized_or_other elems &&
                          forallb (fun e => unrecognized e || keeps_an_entry e) elems
                      | _ => recognized_or_other value && keeps_an_entry value
                      end
                 else keeps_an_entry value)
              items
  | PList elems => forallb keeps_an_entry elems
  | _ => true
  end.

Definition is_metric_item (kv : string * node) : bool := key_is (fst kv) "Metric".

Definition is_other_item (kv : string * node) : bool := negb (is_metric_item kv).

(** The items of a dict with its [Metric] key put last. *)
Definition sink_items (items : list (string * node)) : list (string * node) :=
  filter is_other_item items ++ filter is_metric_item items.

(** The tree with the [Metric] key put last in every dict.  A dict of
    [xmltodict.parse] has its child keys in the order of the first child
    of each name, so that removing the first [Metric] children of an
    element can move its [Metric] key behind other keys: two trees with
    the same [metric_last] differ in the place of that key only. *)
Fixpoint metric_last (n : node) : node :=
  match n with
  | PDict items => PDict (sink_items (map_values (fun _ value => metric_last value) items))
  | PList elems => PList (map metric_last elems)
  | _ => n
  end.

(** No value of a [Metric] key has a [Method] key inside. *)
Fixpoint neutral_metrics (n : node) : bool :=
  match n with
  | PDict items =>
      forallb (fun kv : string * node =>
                 let (key, value) := kv in
                 neutral_metrics value &&
                 (if key_is key "Metric" then no_method value else true))
              items
  | PList elems => forallb neutral_metrics elems
  | _ => true
  end.

(** Whether the name of a metric entry is [VG], as line 44 tests it. *)
Definition entry_is_vg (entry : node) : bool :=
  match py_get entry "@name" (PStr "") with
  | Ok name => str_eq name "VG"
  | Raise _ => false
  end.

(** [f] applied to what a computation returns. *)
Definition rmap {A B : Type} (f : A -> B) (r : result A) : result B :=
  match r with
  | Ok a => Ok (f a)
  | Raise e => Raise e
  end.

(** Every unrecognised entry under a [Metric] key is free of [Method]
    keys, at any depth. *)
Fixpoint plain_entries (n : node) : bool :=
  match n with
  | PDict items =>
      forallb (fun kv : string * node =>
                 let (key, value) := kv in
                 plain_entries value &&
                 (if key_is key "Metric"
                  then match value with
                       | PList elems =>
                           forallb (fun e => negb (unrecognized e) || no_method e) elems
                       | _ => negb (unrecognized value) || no_method value
                       end
                  else true))
              items
  | PList elems => forallb plain_entries elems
  | _ => true
  end.

(** *** What a walk that returns has collected *)

Definition code_eqb (c1 c2 : code) : bool :=
  match c1, c2 with
  | VG, VG | Ci, Ci | Di, Di | TLOC, TLOC => true
  | _, _ => false
  end.

(** The code an entry is dispatched on (lines 41, 44-56): that of its
    [@name] when this is a str naming one of the four. *)
Definition entry_code (entry : node) : option code :=
  match entry with
  | PDict items =>
      match dict_lookup "@name" items with
      | Some (PStr name) => code_of_name name
      | _ => None
      end
  | _ => None
  end.

(** The float of an entry (line 42 and the [float] of its branch): that of
    its [@value] when this is a str [float] accepts, of ['0'] without one. *)
Definition entry_float `{Runtime} (entry : node) : option float :=
  match entry with
  | PDict items =>
      match dict_lookup "@value" items with
      | Some (PStr s) => float_of_str s
      | Some _ => None
      | None => float_of_str "0"
      end
  | _ => None
  end.

(** What one entry adds to the list of the code [c]. *)
Definition entry_values `{Runtime} (c : code) (entry : node) : list float :=
  match entry_code entry with
  | Some c' =>
      if code_eqb c c'
      then match entry_float entry with Some v => [v] | None => [] end
      else []
  | None => []
  end.

(** The metric entries of a method: the normalised [Metric] value of its
    [Metrics] dict, when the method is a dict that has both. *)
Definition method_entries (method : node) : list node :=
  match method with
  | PDict mitems =>
      match dict_lookup "Metrics" mitems with
      | Some (PDict nitems) =>
          match dict_lookup "Metric" nitems with
          | Some method_metrics => as_list method_metrics
          | None => []
          end
      | _ => []
      end
  | _ => []
  end.

Definition method_values `{Runtime} (c : code) (method : node) : list float :=
  flat_map (entry_values c) (method_entries method).

(** The values of the code [c] in the tree, in the order of the walk: at a
    dict, those of its methods, then those of its values in turn. *)
Fixpoint code_values `{Runtime} (c : code) (n : node) : list float :=
  match n with
  | PDict items =>
      match dict_lookup "Method" items with
      | Some methods => flat_map (method_values c) (as_list methods)
      | None => []
      end ++
      flat_map (fun kv : string * node => let (_, value) := kv in code_values c value) items
  | PList elems => flat_map (code_values c) elems
  | _ => []
  end.

(** An entry the dispatch handles without raising: a dict whose value,
    when its name is one of the four codes, is a str [float] accepts. *)
Definition good_entry `{Runtime} (entry : node) : bool :=
  match entry with
  | PDict _ =>
      match entry_code entry with
      | Some _ => match entry_float entry with Some _ => true | None => false end
      | None => true
      end
  | _ => false
  end.

(** A method lines 34-59 handle without raising: a dict without [Metrics],
    or whose [Metrics] is a dict with good entries only. *)
Definition good_method `{Runtime} (method : node) : bool :=
  match method with
  | PDict mitems =>
      match dict_lookup "Metrics" mitems with
      | None => true
      | Some (PDict _) => forallb good_entry (method_entries method)
      | Some _ => false
      end
  | _ => false
  end.

(** Every method of every dict of the tree is good. *)
Fixpoint well_formed `{Runtime} (n : node) : bool :=
  match n with
  | PDict items =>
      match dict_lookup "Method" items with
      | Some methods => forallb good_method (as_list methods)
      | None => true
      end &&
      forallb (fun kv : string * node => let (_, value) := kv in well_formed value) items
  | PList elems => forallb well_formed elems
  | _ => true
  end.

Definition all_codes : list code := [VG; Ci; Di; TLOC].

(** The method has exactly one value for each of the four codes. *)
Definition one_of_each `{Runtime} (method : node) : bool :=
  forallb (fun c => Nat.eqb (length (method_values c method)) 1) all_codes.

(** Every method of every dict of the tree has one value of each code. *)
Fixpoint uniform `{Runtime} (n : node) : bool :=
  match n with
  | PDict items =>
      match dict_lookup "Method" items with
      | Some methods => forallb one_of_each (as_list methods)
      | None => true
      end &&
      forallb (fun kv : string * node => let (_, value) := kv in uniform value) items
  | PList elems => forallb uniform elems
  | _ => true
  end.


(** The five lines of one metric of the additional statistics, for a list
    whose standard deviation line is [last]. *)
Definition metric_block `{Runtime} (metric_name : string) (metric_values : list float)
  (last : output) : list output :=
  [ Print (nl ++ title (replace_underscore metric_name) ++ ":");
    PrintNumber "  Min:    " (PyFloat (fmin metric_values));
    PrintNumber "  Max:    " (PyFloat (fmax metric_values));
    PrintNumber "  Median: " (PyFloat (median metric_values));
    last ].

(** [statistics.stdev] returns on every list of the metrics that has two
    values or more. *)
Definition stdev_returns `{Runtime} (m : metrics) : Prop :=
  forall name values,
    In (name, values) (metrics_items m) ->
    (1 < length values)%nat ->
    exists sd, stdev values = Ok sd.

(** The number of newline characters of a str. *)
Fixpoint newlines (s : string) : nat :=
  match s with
  | EmptyString => 0
  | String c s' => (if Ascii.eqb c "010"%char then 1 else 0) + newlines s'
  end.

(** The lines of text a print call of [display_results] writes: the one
    [print] ends, and one for each newline of its str (a number formatted
    by [.2f] has none).  The output of the handler is not counted. *)
Definition text_lines `{Runtime} (o : output) : nat :=
  match o with
  | Print s => 1 + newlines s
  | PrintNumber label _ => 1 + newlines label
  | PrintError _ | PrintExc _ => 0
  end.

Definition report_lines `{Runtime} (out : list output) : nat :=
  fold_right (fun o acc => text_lines o + acc) 0 out.

(** The line of line 128-129: the standard deviation, or N/A. *)
Definition stdev_line `{Runtime} (o : output) : Prop :=
  o = Print "  StdDev: N/A" \/ exists sd, o = PrintNumber "  StdDev: " (PyFloat sd).

(** ** An instance of the library on integer samples

    The carrier is [Z]; [float_of_str] reads the decimal integers with an
    optional sign, and quotients and roots are rounded down.  It runs the
    program on concrete reports whose values are integers. *)
Module Sample.

Fixpoint digits (acc : Z) (s : string) : option Z :=
  match s with
  | EmptyString => Some acc
  | String c s' =>
      let d := Z.of_nat (nat_of_ascii c) in
      if ((48 <=? d) && (d <=? 57))%Z then digits (10 * acc + (d - 48))%Z s' else None
  end.

Definition int_of_str (s : string) : option Z :=
  match s with
  | EmptyString => None
  | String "-" (String c s') =>
      match digits 0 (String c s') with
      | Some z => Some (- z)%Z
      | None => None
      end
  | String "+" (String c s') => digits 0 (String c s')
  | _ => digits 0 s
  end.

Fixpoint insert (x : Z) (l : list Z) : list Z :=
  match l with
  | [] => [x]
  | y :: l' => if (x <=? y)%Z then x :: l else y :: insert x l'
  end.

Definition sort (l : list Z) : list Z := fold_right insert [] l.

Definition total (l : list Z) : Z := fold_right Z.add 0%Z l.

Definition quotient (x : Z) (n : nat) : Z := (x / Z.of_nat n)%Z.

Definition least (l : list Z) : Z :=
  match l with
  | [] => 0%Z
  | x :: l' => fold_left Z.min l' x
  end.

Definition greatest (l : list Z) : Z :=
  match l with
  | [] => 0%Z
  | x :: l' => fold_left Z.max l' x
  end.

Definition middle (l : list Z) : Z :=
  let s := sort l in
  let n := length s in
  if Nat.even n
  then ((nth (n / 2 - 1) s 0 + nth (n / 2) s 0) / 2)%Z
  else nth (n / 2) s 0%Z.

Definition deviation (l : list Z) : result Z :=
  let n := Z.of_nat (length l) in
  let mean := (total l / n)%Z in
  let ss := total (map (fun x => (x - mean) * (x - mean))%Z l) in
  Ok (Z.sqrt (ss / (n - 1)))%Z.

#[export] Instance runtime : Runtime := {|
  float := Z;
  float_of_str := int_of_str;
  fsum := total;
  fdiv := quotient;
  fmin := least;
  fmax := greatest;
  median := middle;
  stdev := deviation;
|}.

(** A world with one file whose parsed tree is [t]. *)
Definition one_file (name : string) (t : node) : world :=
  mkWorld (fun p => String.eqb p name)
          (fun p => if String.eqb p name then Ok t
                    else Raise (LoadError p)).

Definition attr_metric (name value : string) : node :=
  PDict [("@name", PStr name); ("@value", PStr value)].

(** [<Project><Package/></Project>]: no method at all. *)
Definition report_empty : node :=
  PDict [("Project", PDict [("@name", PStr "demo"); ("Package", PNone)])].

(** One class with two methods, each with the four codes; the first has
    one more entry, of an unknown code. *)
Definition method_f : node :=
  PDict [("@name", PStr "f");
         ("Metrics", PDict [("Metric", PList [
            attr_metric "VG" "2"; attr_metric "Ci" "5";
            attr_metric "NOP" "x"; attr_metric "Di" "1";
            attr_metric "TLOC" "10"])])].

Definition method_g : node :=
  PDict [("@name", PStr "g");
         ("Metrics", PDict [("Metric", PList [
            attr_metric "VG" "4"; attr_metric "Ci" "7";
            attr_metric "Di" "3"; attr_metric "TLOC" "30"])])].

Definition class_two : node := PDict [("Method", PList [method_f; method_g])].

Definition report_two : node :=
  PDict [("Project", PDict [("Class", class_two)])].

(** One method whose only metric is its cyclomatic complexity. *)
Definition report_vg_only : node :=
  PDict [("Project", PDict [("Method",
    PDict [("Metrics", PDict [("Metric", attr_metric "VG" "3")])])])].

(** The same, the scalars under [Method] and [Metric] wrapped in lists. *)
Definition report_vg_only_lists : node :=
  PDict [("Project", PDict [("Method", PList [
    PDict [("Metrics", PDict [("Metric", PList [attr_metric "VG" "3"])])]])])].

(** One method whose cyclomatic complexity is not a number. *)
Definition report_bad_value : node :=
  PDict [("Project", PDict [("Method",
    PDict [("Metrics", PDict [("Metric", attr_metric "VG" "high")])])])].

(** A method with a metric entry of an unknown code that has a method
    inside, and an entry of its own:
    [<Method><Metrics><Metric name="XYZ" value="1"><Method>...VG=1...
    </Method></Metric><Metric name="VG" value="2"/></Metrics></Method>]. *)
Definition report_nested : node :=
  PDict [("Method",
    PDict [("Metrics", PDict [("Metric", PList [
      PDict [("@name", PStr "XYZ"); ("@value", PStr "1");
             ("Method",
              PDict [("Metrics", PDict [("Metric", attr_metric "VG" "1")])])];
      attr_metric "VG" "2"])])])].

(** The same document without its element of code XYZ. *)
Definition report_nested_removed : node :=
  PDict [("Method", PDict [("Metrics", PDict [("Metric", attr_metric "VG" "2")])])].

(** A method whose only metric entry has an unknown code, and the same
    document without this entry: [<Method><Metrics/></Method>]. *)
Definition report_unknown_only : node :=
  PDict [("Method", PDict [("Metrics", PDict [("Metric", attr_metric "XYZ" "1")])])].

Definition report_unknown_only_removed : node :=
  PDict [("Method", PDict [("Metrics", PNone)])].

(** An element whose first child is a metric entry of an unknown code,
    followed by another element and by a metric entry that has a method
    inside:
    [<A><Metric name="XYZ" value="1"/><Foo><Method>...VG=5...</Method></Foo>
    <Metric name="VG" value="1"><Method>...VG=9...</Method></Metric></A>]. *)
Definition method_vg (value : string) : node :=
  PDict [("Metrics", PDict [("Metric", attr_metric "VG" value)])].

Definition entry_with_method : node :=
  PDict [("@name", PStr "VG"); ("@value", PStr "1"); ("Method", method_vg "9")].

Definition report_interleaved : node :=
  PDict [("A", PDict [("Metric", PList [attr_metric "XYZ" "1"; entry_with_method]);
                      ("Foo", PDict [("Method", method_vg "5")])])].

(** The same document without its first child: the key [Foo] now comes
    first. *)
Definition report_interleaved_removed : node :=
  PDict [("A", PDict [("Foo", PDict [("Method", method_vg "5")]);
                      ("Metric", entry_with_method)])].

(** The methods of [report_two] without the entry of code NOP. *)
Definition report_two_removed : node :=
  PDict [("Project", PDict [("Class", PDict [("Method", PList [
    PDict [("@name", PStr "f");
           ("Metrics", PDict [("Metric", PList [
              attr_metric "VG" "2"; attr_metric "Ci" "5";
              attr_metric "Di" "1"; attr_metric "TLOC" "10"])])];
    method_g])])])].




(** One method that has a system complexity and nothing else. *)
Definition report_ci_only : node :=
  PDict [("Project", PDict [("Method",
    PDict [("Metrics", PDict [("Metric", attr_metric "Ci" "5")])])])].

Definition metrics_ci_only : @metrics runtime := @mkMetrics runtime [] [5%Z] [] [].


(** Two methods with the four codes each, and nothing else. *)
Definition method_plain (vg ci di tloc : string) : node :=
  PDict [("Metrics", PDict [("Metric", PList [
     attr_metric "VG" vg; attr_metric "Ci" ci;
     attr_metric "Di" di; attr_metric "TLOC" tloc])])].

Definition report_plain : node :=
  PDict [("Project", PDict [("Class",
    PDict [("Method", PList [method_plain "2" "5" "1" "10";
                             method_plain "4" "7" "3" "30"])])])].

(** What the walk collects from [report_two] and its summary. *)
Definition metrics_two : @metrics runtime :=
  @mkMetrics runtime [2; 4]%Z [5; 7]%Z [1; 3]%Z [10; 30]%Z.

Definition results_two : @results runtime :=
  @mkResults runtime 2 (@PyFloat runtime 3%Z) (@PyFloat runtime 6%Z)
             (@PyFloat runtime 2%Z) (@PyFloat runtime 20%Z).

(** What the walk collects from [report_nested] and from
    [report_nested_removed]. *)
Definition metrics_nested : @metrics runtime := @mkMetrics runtime [2; 1]%Z [] [] [].

Definition metrics_nested_removed : @metrics runtime := @mkMetrics runtime [2%Z] [] [] [].


End Sample.

(** * Properties *)

(** Induction on a tree, with the hypothesis on every value of a dict and
    every element of a list. *)
Lemma node_ind (P : node -> Prop)
  (HNone : P PNone)
  (HStr : forall s, P (PStr s))
  (HDict : forall items, Forall (fun kv => P (snd kv)) items -> P (PDict items))
  (HList : forall elems, Forall P elems -> P (PList elems)) :
  forall n, P n.
Proof.
  fix IH 1. intros [ | s | items | elems ].
  - exact HNone.
  - apply HStr.
  - apply HDict. induction items as [ | [k v] items IHitems ].
    + constructor.
    + constructor; [ apply IH | exact IHitems ].
  - apply HList. induction elems as [ | v elems IHelems ].
    + constructor.
    + constructor; [ apply IH | exact IHelems ].
Qed.

(** *** Lookups *)

Lemma dict_lookup_cons (k key : string) (value : node) (items : list (string * node)) :
  dict_lookup k ((key, value) :: items) =
  if String.eqb k key then Some value else dict_lookup k items.
Proof. unfold dict_lookup. simpl. now destruct (String.eqb k key). Qed.

Lemma dict_lookup_app (k : string) (items1 items2 : list (string * node)) :
  dict_lookup k (items1 ++ items2) =
  match dict_lookup k items1 with
  | Some v => Some v
  | None => dict_lookup k items2
  end.
Proof.
  induction items1 as [ | [key value] items1 IH ]; [ reflexivity | ].
  rewrite <- app_comm_cons, !dict_lookup_cons.
  now destruct (String.eqb k key).
Qed.

Section Walk.
Context `{Runtime}.

(** *** The monad and the loop *)

Lemma for_each_app {A S : Type} (body : A -> S -> result S) (l1 l2 : list A) (s : S) :
  for_each body (l1 ++ l2) s = (s' <- for_each body l1 s ;; for_each body l2 s').
Proof.
  revert s. induction l1 as [ | a l1 IH ]; intros s; simpl.
  - reflexivity.
  - destruct (body a s) as [ s1 | e ]; simpl; [ apply IH | reflexivity ].
Qed.

Lemma for_each_ext_in {A S : Type} (f g : A -> S -> result S) (l : list A) :
  Forall (fun a => forall s, f a s = g a s) l ->
  forall s, for_each f l s = for_each g l s.
Proof.
  induction 1 as [ | a l Ha _ IH ]; intros s; simpl.
  - reflexivity.
  - rewrite Ha. destruct (g a s); simpl; [ apply IH | reflexivity ].
Qed.

Lemma for_each_map {A B S : Type} (h : A -> B) (f : B -> S -> result S) (l : list A) (s : S) :
  for_each f (map h l) s = for_each (fun a => f (h a)) l s.
Proof.
  revert s. induction l as [ | a l IH ]; intros s; simpl.
  - reflexivity.
  - destruct (f (h a) s); simpl; [ apply IH | reflexivity ].
Qed.

(** A loop whose bodies all return their state unchanged does so too. *)
Lemma for_each_skip {A S : Type} (f : A -> S -> result S) (l : list A) :
  Forall (fun a => forall s, f a s = Ok s) l ->
  forall s, for_each f l s = Ok s.
Proof.
  induction 1 as [ | a l Ha _ IH ]; intros s; simpl.
  - reflexivity.
  - rewrite Ha. simpl. apply IH.
Qed.

(** *** Accumulation: the lists only grow at their ends *)

Lemma madd_empty_r (m : metrics) : madd m empty_metrics = m.
Proof. destruct m. unfold madd. simpl. now rewrite !app_nil_r. Qed.

Lemma madd_empty_l (m : metrics) : madd empty_metrics m = m.
Proof. destruct m. reflexivity. Qed.

Lemma madd_assoc (a b c : metrics) : madd (madd a b) c = madd a (madd b c).
Proof. unfold madd. simpl. now rewrite !app_assoc. Qed.

Lemma shift_shift (m d : metrics) (r : result metrics) :
  shift (madd m d) r = shift m (shift d r).
Proof. destruct r; simpl; [ now rewrite madd_assoc | reflexivity ]. Qed.

Lemma shift_empty (r : result metrics) : shift empty_metrics r = r.
Proof. destruct r; simpl; [ now rewrite madd_empty_l | reflexivity ]. Qed.

Lemma append_to_madd (c : code) (v : float) (m : metrics) :
  append_to c v m = madd m (append_to c v empty_metrics).
Proof.
  destruct m, c; unfold madd, append_to, append_vg, append_ci, append_di, append_tloc;
    simpl; now rewrite ?app_nil_r.
Qed.

Lemma for_each_framed {A : Type} (f : A -> metrics -> result metrics) (l : list A) :
  Forall (framed f) l ->
  forall m, for_each f l m = shift m (for_each f l empty_metrics).
Proof.
  induction 1 as [ | a l Ha _ IH ]; intros m; simpl.
  - now rewrite madd_empty_r.
  - rewrite (Ha m). destruct (f a empty_metrics) as [ d | e ]; simpl.
    + rewrite (IH (madd m d)), (IH d). apply shift_shift.
    + reflexivity.
Qed.

Lemma process_metric_framed (metric : node) : framed process_metric metric.
Proof.
  intros m. unfold process_metric.
  destruct (py_get metric "@name" (PStr "")) as [ name | e ]; simpl; [ | reflexivity ].
  destruct (py_get metric "@value" (PStr "0")) as [ value | e ]; simpl; [ | reflexivity ].
  destruct (str_eq name "VG");
    [ destruct (py_float value) as [ v | e ]; simpl;
      [ exact (f_equal Ok (append_to_madd VG v m)) | reflexivity ] | ].
  destruct (str_eq name "Ci");
    [ destruct (py_float value) as [ v | e ]; simpl;
      [ exact (f_equal Ok (append_to_madd Ci v m)) | reflexivity ] | ].
  destruct (str_eq name "Di");
    [ destruct (py_float value) as [ v | e ]; simpl;
      [ exact (f_equal Ok (append_to_madd Di v m)) | reflexivity ] | ].
  destruct (str_eq name "TLOC");
    [ destruct (py_float value) as [ v | e ]; simpl;
      [ exact (f_equal Ok (append_to_madd TLOC v m)) | reflexivity ] | ].
  simpl. now rewrite madd_empty_r.
Qed.

Lemma process_method_framed (method : node) : framed process_method method.
Proof.
  intros m. unfold process_method.
  destruct (py_contains "Metrics" method) as [ [ | ] | e ]; simpl;
    [ | now rewrite madd_empty_r | reflexivity ].
  destruct (py_getitem method "Metrics") as [ mn | e ]; simpl; [ | reflexivity ].
  destruct (py_contains "Metric" mn) as [ [ | ] | e ]; simpl;
    [ | now rewrite madd_empty_r | reflexivity ].
  destruct (py_getitem mn "Metric") as [ mm | e ]; simpl; [ | reflexivity ].
  apply for_each_framed. apply Forall_forall. intros x _. apply process_metric_framed.
Qed.

Lemma process_methods_framed (items : list (string * node)) (m : metrics) :
  process_methods items m = shift m (process_methods items empty_metrics).
Proof.
  unfold process_methods. destruct (dict_lookup "Method" items) as [ methods | ].
  - apply for_each_framed. apply Forall_forall. intros x _. apply process_method_framed.
  - simpl. now rewrite madd_empty_r.
Qed.

Lemma extract_dict (items : list (string * node)) (m : metrics) :
  extract_method_metrics (PDict items) m =
  (m1 <- process_methods items m ;; for_each (walk_value extract_method_metrics) items m1).
Proof. reflexivity. Qed.

Lemma extract_list (elems : list node) (m : metrics) :
  extract_method_metrics (PList elems) m = for_each extract_method_metrics elems m.
Proof. reflexivity. Qed.

Lemma extract_framed (n : node) : framed extract_method_metrics n.
Proof.
  induction n as [ | s | items IH | elems IH ] using node_ind; intros m.
  - simpl. now rewrite madd_empty_r.
  - simpl. now rewrite madd_empty_r.
  - rewrite !extract_dict. rewrite (process_methods_framed items m).
    assert (Hloop : Forall (framed (walk_value extract_method_metrics)) items).
    { eapply Forall_impl; [ | exact IH ]. intros [k v] Hv m'. simpl in *.
      destruct v; try apply Hv; simpl; now rewrite madd_empty_r. }
    destruct (process_methods items empty_metrics) as [ d | e ]; simpl.
    + rewrite (for_each_framed _ _ Hloop (madd m d)), (for_each_framed _ _ Hloop d).
      apply shift_shift.
    + reflexivity.
  - rewrite !extract_list. apply for_each_framed. exact IH.
Qed.

End Walk.

Section Reach.
Context `{Runtime}.

(** *** What one recognised entry does *)

Lemma code_of_name_dispatch (name : string) (c : code) :
  code_of_name name = Some c ->
  (String.eqb name "VG", String.eqb name "Ci", String.eqb name "Di", String.eqb name "TLOC") =
  match c with
  | VG => (true, false, false, false)
  | Ci => (false, true, false, false)
  | Di => (false, false, true, false)
  | TLOC => (false, false, false, true)
  end.
Proof.
  unfold code_of_name.
  destruct (String.eqb_spec name "VG") as [ -> | _ ];
    [ intros [= <-]; reflexivity | ].
  destruct (String.eqb_spec name "Ci") as [ -> | _ ];
    [ intros [= <-]; reflexivity | ].
  destruct (String.eqb_spec name "Di") as [ -> | _ ];
    [ intros [= <-]; reflexivity | ].
  destruct (String.eqb_spec name "TLOC") as [ -> | _ ];
    [ intros [= <-]; reflexivity | discriminate ].
Qed.

Lemma process_metric_recognized (entry : node) (c : code) (value : node) (m : metrics) :
  entry_has entry c value ->
  process_metric entry m = (v <- py_float value ;; Ok (append_to c v m)).
Proof.
  intros (name & Hname & Hcode & Hvalue). unfold process_metric.
  rewrite Hname, Hvalue. simpl.
  pose proof (code_of_name_dispatch name c Hcode) as Hd.
  destruct c; injection Hd as Hvg Hci Hdi Htloc;
    rewrite ?Hvg, ?Hci, ?Hdi, ?Htloc; reflexivity.
Qed.

Lemma seq_of_madd (c : code) (m d : metrics) :
  seq_of c (madd m d) = seq_of c m ++ seq_of c d.
Proof. destruct c; reflexivity. Qed.

Lemma seq_of_append_to (c : code) (v : float) (m : metrics) :
  seq_of c (append_to c v m) = seq_of c m ++ [v].
Proof. destruct c; reflexivity. Qed.

(** *** Loops that meet a given element *)


(** When every body keeps [P], so does the loop that returns. *)
Lemma for_each_keeps {A S : Type} (f : A -> S -> result S) (P : S -> Prop) (l : list A) :
  (forall x s s', f x s = Ok s' -> P s -> P s') ->
  forall s s', for_each f l s = Ok s' -> P s -> P s'.
Proof.
  intros Hkeep. induction l as [ | x l IH ]; intros s s' Hrun Hp; simpl in Hrun.
  - now injection Hrun as <-.
  - destruct (f x s) as [ s1 | e ] eqn:Hx; simpl in Hrun; [ | discriminate ].
    apply (IH s1 s' Hrun). eapply Hkeep; eassumption.
Qed.

(** When moreover the body on [a] establishes [P], the loop over a list
    that holds [a] establishes it. *)
Lemma for_each_establishes {A S : Type} (f : A -> S -> result S) (P : S -> Prop)
  (l : list A) (a : A) :
  (forall x s s', f x s = Ok s' -> P s -> P s') ->
  (forall s s', f a s = Ok s' -> P s') ->
  In a l ->
  forall s s', for_each f l s = Ok s' -> P s'.
Proof.
  intros Hkeep Ha. induction l as [ | x l IH ]; intros Hin s s' Hrun; [ destruct Hin | ].
  simpl in Hrun.
  destruct (f x s) as [ s1 | e ] eqn:Hx; simpl in Hrun; [ | discriminate ].
  destruct Hin as [ -> | Hin ].
  - apply (for_each_keeps f P l Hkeep s1 s' Hrun). eapply Ha; eassumption.
  - apply (IH Hin s1 s' Hrun).
Qed.

(** A framed step keeps every value already in the lists. *)
Lemma framed_keeps {A : Type} (f : A -> metrics -> result metrics) (a : A)
  (c : code) (v : float) (s s' : metrics) :
  framed f a -> f a s = Ok s' -> In v (seq_of c s) -> In v (seq_of c s').
Proof.
  intros Hf Hrun Hin. rewrite (Hf s) in Hrun.
  destruct (f a empty_metrics) as [ d | e ]; simpl in Hrun; [ | discriminate ].
  injection Hrun as <-. rewrite seq_of_madd. apply in_or_app. now left.
Qed.

Lemma walk_value_framed (kv : string * node) :
  framed (walk_value extract_method_metrics) kv.
Proof.
  destruct kv as [k v]. intros m.
  destruct v as [ | s | items | elems ].
  - simpl. now rewrite madd_empty_r.
  - simpl. now rewrite madd_empty_r.
  - apply (extract_framed (PDict items)).
  - apply (extract_framed (PList elems)).
Qed.

Lemma metric_of_inv (method entry : node) :
  metric_of method entry ->
  exists method_metrics,
    In entry (as_list method_metrics) /\
    forall m, process_method method m =
              for_each process_metric (as_list method_metrics) m.
Proof.
  intros (mn & mm & Hmn & Hmm & Hin). exists mm. split; [ exact Hin | ].
  intros m. unfold process_method.
  destruct method as [ | s | mitems | l ]; try discriminate. simpl in *.
  unfold dict_has.
  destruct (dict_lookup "Metrics" mitems) as [ x | ]; [ | discriminate ].
  injection Hmn as ->. simpl.
  destruct mn as [ | s | nitems | l ]; try discriminate. simpl in *.
  unfold dict_has.
  destruct (dict_lookup "Metric" nitems) as [ y | ]; [ | discriminate ].
  injection Hmm as ->. reflexivity.
Qed.

(** *** A bad value anywhere stops the walk *)





(** *** A recognised entry anywhere is collected *)

Lemma extract_collects_at (d method entry : node) (c : code) (value : node) (v : float) :
  method_of d method ->
  metric_of method entry ->
  entry_has entry c value ->
  py_float value = Ok v ->
  forall m m', extract_method_metrics d m = Ok m' -> In v (seq_of c m').
Proof.
  intros (items & methods & -> & Hlook & Hin) Hmetric Hentry Hv m m' Hrun.
  destruct (metric_of_inv method entry Hmetric) as (mm & Hin' & Hpm).
  rewrite extract_dict in Hrun. unfold process_methods in Hrun. rewrite Hlook in Hrun.
  destruct (for_each process_method (as_list methods) m) as [ m1 | e ] eqn:Hm1;
    simpl in Hrun; [ | discriminate ].
  assert (Hin1 : In v (seq_of c m1)).
  { apply (for_each_establishes process_method (fun s => In v (seq_of c s))
             (as_list methods) method) with (s := m); auto.
    - intros x s s'. apply framed_keeps, process_method_framed.
    - intros s s' Hs. rewrite Hpm in Hs.
      apply (for_each_establishes process_metric (fun s => In v (seq_of c s))
               (as_list mm) entry) with (s := s); auto.
      + intros x s0 s0'. apply framed_keeps, process_metric_framed.
      + intros s0 s0' Hs0.
        rewrite (process_metric_recognized entry c value s0 Hentry), Hv in Hs0.
        simpl in Hs0. injection Hs0 as <-.
        rewrite seq_of_append_to. apply in_or_app. right. now left. }
  apply (for_each_keeps (walk_value extract_method_metrics)
           (fun s => In v (seq_of c s)) items) with (s := m1); auto.
  intros x s s'. apply framed_keeps, walk_value_framed.
Qed.

Lemma visits_collects (t d : node) (c : code) (v : float) :
  visits t d ->
  (forall m m', extract_method_metrics d m = Ok m' -> In v (seq_of c m')) ->
  forall m m', extract_method_metrics t m = Ok m' -> In v (seq_of c m').
Proof.
  induction 1 as [ t | items key value d Hin Hshape _ IH | elems item d Hin _ IH ];
    intros Hd m m' Hrun.
  - eapply Hd, Hrun.
  - rewrite extract_dict in Hrun.
    destruct (process_methods items m) as [ m1 | e ]; simpl in Hrun; [ | discriminate ].
    apply (for_each_establishes (walk_value extract_method_metrics)
             (fun s => In v (seq_of c s)) items (key, value)) with (s := m1); auto.
    + intros x s s'. apply framed_keeps, walk_value_framed.
    + intros s s' Hs. simpl in Hs.
      destruct value; try discriminate; eapply IH; eauto.
  - rewrite extract_list in Hrun.
    apply (for_each_establishes extract_method_metrics
             (fun s => In v (seq_of c s)) elems item) with (s := m); auto.
    + intros x s s'. apply framed_keeps, extract_framed.
    + intros s s' Hs. eapply IH; eauto.
Qed.

(** *** A tree without methods *)

Lemma no_method_extract (t : node) :
  no_method t = true -> forall m, extract_method_metrics t m = Ok m.
Proof.
  induction t as [ | s | items IH | elems IH ] using node_ind; intros Hno m;
    try reflexivity.
  - simpl in Hno. apply andb_true_iff in Hno. destruct Hno as [ Hhas Hall ].
    rewrite extract_dict. unfold process_methods.
    unfold dict_has in Hhas.
    destruct (dict_lookup "Method" items); [ discriminate | ]. simpl.
    apply for_each_skip. rewrite forallb_forall in Hall. rewrite Forall_forall in *.
    intros [k v] Hin s. specialize (IH (k, v) Hin). specialize (Hall (k, v) Hin).
    simpl in *. destruct v; try reflexivity; now apply IH.
  - simpl in Hno. rewrite extract_list. apply for_each_skip.
    rewrite forallb_forall in Hno. rewrite Forall_forall in *.
    intros x Hin s. now apply IH, Hno.
Qed.

End Reach.

Section Report.
Context `{Runtime}.

(** *** The report starts with the header *)

Lemma display_results_prefix (r : results) (m : metrics) :
  exists rest, fst (display_results r m) = display_header r ++ rest.
Proof.
  unfold display_results. destruct (0 <? total_methods r)%nat.
  - destruct (display_all (metrics_items m)) as [ out e ].
    exists (additional_heading ++ out). reflexivity.
  - exists []. cbn [fst]. now rewrite app_nil_r.
Qed.

Lemma main_report_prefix (w : world) (xml_file : string) (r : results) (m : metrics) :
  path_exists w xml_file = true ->
  parse_jasome_xml w xml_file = Ok (r, m) ->
  exists rest, fst (main w xml_file) = display_header r ++ rest.
Proof.
  intros Hexists Hparse. unfold main. rewrite Hexists, Hparse. cbn [negb].
  destruct (display_results_prefix r m) as [ rest Hrest ].
  destruct (display_results r m) as [ out [ e | ] ]; cbn [fst] in *; rewrite Hrest.
  - exists (rest ++ error_report e). now rewrite app_assoc.
  - now exists rest.
Qed.

Lemma summarize_total (m : metrics) (r : results) :
  summarize m = Ok r -> total_methods r = length (mccabe_cyclomatic_complexity m).
Proof.
  unfold summarize. destruct (0 <? length (mccabe_cyclomatic_complexity m))%nat.
  - destruct (average (mccabe_cyclomatic_complexity m)); simpl; [ | discriminate ].
    destruct (average (system_complexity m)); simpl; [ | discriminate ].
    destruct (average (data_complexity m)); simpl; [ | discriminate ].
    destruct (average (total_lines_of_code m)); simpl; [ | discriminate ].
    now intros [= <-].
  - now intros [= <-].
Qed.

End Report.

(** * Properties of the program *)

(** The closed instances below run on the integer samples. *)
#[local] Existing Instance Sample.runtime.

(** C1. For every well-formed input without any Method node, the program
    reports the four averages as 0 and a total method count of 0, and the
    additional-statistics section is not rendered: the output is the
    header alone. *)
Theorem zero_methods_report `{Runtime} (w : world) (xml_file : string) (t : node) :
  path_exists w xml_file = true ->
  load w xml_file = Ok t ->
  no_method t = true ->
  parse_jasome_xml w xml_file = Ok (zero_results, empty_metrics) /\
  main w xml_file = (display_header zero_results, Returned) /\
  ~ In (Print (nl ++ "ADDITIONAL STATISTICS:")) (fst (main w xml_file)).
Proof.
  intros Hexists Hload Hno.
  assert (Hparse : parse_jasome_xml w xml_file = Ok (zero_results, empty_metrics)).
  { unfold parse_jasome_xml. rewrite Hload. simpl.
    rewrite (no_method_extract t Hno). reflexivity. }
  assert (Hmain : main w xml_file = (display_header zero_results, Returned)).
  { unfold main. rewrite Hexists, Hparse. reflexivity. }
  repeat split; [ exact Hparse | exact Hmain | ].
  rewrite Hmain. simpl.
  intros Hin. repeat (destruct Hin as [ Heq | Hin ]; [ discriminate Heq | ]).
  exact Hin.
Qed.

Lemma zero_methods_report_witness :
  no_method Sample.report_empty = true /\
  main (Sample.one_file "report.xml" Sample.report_empty) "report.xml" =
  (display_header zero_results, Returned).
Proof.
  split; [ reflexivity | ].
  refine (proj1 (proj2 (@zero_methods_report Sample.runtime
            (Sample.one_file "report.xml" Sample.report_empty)
            "report.xml" Sample.report_empty _ _ _))); reflexivity.
Defined.





(** C4. When the input path does not exist, main prints the usage hint,
    that is the line that names the missing file and the three lines of
    example usage, and nothing of the report, and returns without raising,
    so that the process ends with status 0. *)
Theorem missing_file_usage_hint `{Runtime} (w : world) (xml_file : string) :
  path_exists w xml_file = false ->
  main w xml_file =
  ([ Print ("Error: XML file '" ++ xml_file ++ "' not found!" ++ nl);
     Print "Example usage:";
     Print "  python metrics.py output.xml";
     Print ("  python metrics.py /path/to/output.xml" ++ nl) ], Returned) /\
  exit_status (snd (main w xml_file)) = 0%Z /\
  ~ prints_number (fst (main w xml_file)) /\
  (forall r, ~ exists rest, fst (main w xml_file) = display_header r ++ rest).
Proof.
  intros Hmissing.
  assert (Hmain : main w xml_file =
    ([ Print ("Error: XML file '" ++ xml_file ++ "' not found!" ++ nl);
       Print "Example usage:";
       Print "  python metrics.py output.xml";
       Print ("  python metrics.py /path/to/output.xml" ++ nl) ], Returned)).
  { unfold main. rewrite Hmissing. reflexivity. }
  rewrite Hmain. repeat split.
  - intros (label & x & Hin). cbn [fst In] in Hin.
    repeat (destruct Hin as [ Heq | Hin ]; [ discriminate Heq | ]).
    exact Hin.
  - intros r (rest & Heq). cbn [fst] in Heq. unfold display_header in Heq.
    cbn [app] in Heq. injection Heq as _ Hsecond _. discriminate Hsecond.
Qed.

Lemma missing_file_usage_hint_witness :
  main (Sample.one_file "report.xml" Sample.report_two) "absent.xml" =
  ([ Print ("Error: XML file 'absent.xml' not found!" ++ nl);
     Print "Example usage:";
     Print "  python metrics.py output.xml";
     Print ("  python metrics.py /path/to/output.xml" ++ nl) ], Returned).
Proof.
  refine (proj1 (@missing_file_usage_hint Sample.runtime
            (Sample.one_file "report.xml" Sample.report_two) "absent.xml" _)).
  reflexivity.
Defined.

(** C5. The total method count of a report is the length of the
    cyclomatic-complexity list, which is what the output shows; every
    metric entry named VG that the walk processes adds one to it and no
    other entry does; the number of Method nodes is another number: a tree
    with one method and no VG entry gives the empty lists. *)
Theorem total_methods_is_vg_length `{Runtime} (w : world) (xml_file : string)
  (r : results) (m : metrics) :
  path_exists w xml_file = true ->
  parse_jasome_xml w xml_file = Ok (r, m) ->
  total_methods r = length (mccabe_cyclomatic_complexity m) /\
  In (Print (nl ++ "Total Methods Analyzed: " ++
             str_of_nat (length (mccabe_cyclomatic_complexity m))))
     (fst (main w xml_file)) /\
  (forall entry s s',
     process_metric entry s = Ok s' ->
     length (mccabe_cyclomatic_complexity s') =
     length (mccabe_cyclomatic_complexity s) + (if entry_is_vg entry then 1 else 0)) /\
  (exists t,
     count_methods t = 1 /\
     extract_method_metrics t empty_metrics = Ok empty_metrics).
Proof.
  intros Hexists Hparse.
  assert (Htotal : total_methods r = length (mccabe_cyclomatic_complexity m)).
  { unfold parse_jasome_xml in Hparse.
    destruct (load w xml_file) as [ t | e ]; simpl in Hparse; [ | discriminate ].
    destruct (extract_method_metrics t empty_metrics) as [ m0 | e ]; simpl in Hparse;
      [ | discriminate ].
    destruct (summarize m0) as [ r0 | e ] eqn:Hsum; simpl in Hparse; [ | discriminate ].
    injection Hparse as <- <-. now apply summarize_total. }
  split; [ exact Htotal | ]. split; [ | split ].
  - destruct (main_report_prefix w xml_file r m Hexists Hparse) as [ rest -> ].
    apply in_or_app. left. rewrite <- Htotal. unfold display_header.
    do 3 right. left. reflexivity.
  - intros entry s s'. unfold process_metric, entry_is_vg.
    destruct (py_get entry "@name" (PStr "")) as [ name | e ]; simpl; [ | discriminate ].
    destruct (py_get entry "@value" (PStr "0")) as [ value | e ]; simpl; [ | discriminate ].
    destruct (str_eq name "VG").
    { destruct (py_float value); simpl; [ | discriminate ].
      intros [= <-]. simpl. rewrite length_app. reflexivity. }
    destruct (str_eq name "Ci").
    { destruct (py_float value); simpl; [ | discriminate ].
      intros [= <-]. simpl. lia. }
    destruct (str_eq name "Di").
    { destruct (py_float value); simpl; [ | discriminate ].
      intros [= <-]. simpl. lia. }
    destruct (str_eq name "TLOC").
    { destruct (py_float value); simpl; [ | discriminate ].
      intros [= <-]. simpl. lia. }
    intros [= <-]. lia.
  - exists (PDict [("Method", PDict [("@name", PStr "f")])]). split; reflexivity.
Qed.

Lemma total_methods_is_vg_length_witness :
  parse_jasome_xml (Sample.one_file "report.xml" Sample.report_two) "report.xml" =
  Ok (Sample.results_two, Sample.metrics_two) /\
  total_methods Sample.results_two =
  length (mccabe_cyclomatic_complexity Sample.metrics_two).
Proof.
  split; [ reflexivity | ].
  refine (proj1 (@total_methods_is_vg_length Sample.runtime
            (Sample.one_file "report.xml" Sample.report_two) "report.xml"
            Sample.results_two Sample.metrics_two _ _)); reflexivity.
Defined.

(** C8. The walk calls itself on every dict or list value of a dict,
    whether or not the dict has a Method key, and on every element of a
    list; so when it returns, each recognised metric entry of each method
    of each dict it reaches, at any depth, has its value in the list of
    its code. *)
Theorem nested_methods_collected `{Runtime} (t d method entry : node) (c : code)
  (value : node) (v : float) (m m' : metrics) :
  visits t d ->
  method_of d method ->
  metric_of method entry ->
  entry_has entry c value ->
  py_float value = Ok v ->
  extract_method_metrics t m = Ok m' ->
  In v (seq_of c m') /\
  (forall items s,
     extract_method_metrics (PDict items) s =
     (s1 <- process_methods items s ;;
      for_each (walk_value extract_method_metrics) items s1)) /\
  (forall elems s,
     extract_method_metrics (PList elems) s =
     for_each extract_method_metrics elems s).
Proof.
  intros Hvisits Hmethod Hmetric Hentry Hv Hrun. split; [ | split; reflexivity ].
  eapply visits_collects; [ exact Hvisits | | exact Hrun ].
  eapply extract_collects_at; eassumption.
Qed.

Lemma nested_methods_collected_witness :
  extract_method_metrics Sample.report_two empty_metrics = Ok Sample.metrics_two /\
  In 4%Z (seq_of VG Sample.metrics_two).
Proof.
  split; [ reflexivity | ].
  refine (proj1 (@nested_methods_collected Sample.runtime
            Sample.report_two Sample.class_two Sample.method_g
            (Sample.attr_metric "VG" "4") VG (PStr "4") 4%Z empty_metrics
            Sample.metrics_two _ _ _ _ _ _)).
  - eapply visits_value; [ left; reflexivity | reflexivity | ].
    eapply visits_value; [ left; reflexivity | reflexivity | apply visits_here ].
  - eexists _, _. split; [ reflexivity | split; [ reflexivity | right; left; reflexivity ] ].
  - eexists _, _. split; [ reflexivity | split; [ reflexivity | left; reflexivity ] ].
  - exists "VG". repeat split; reflexivity.
  - reflexivity.
  - reflexivity.
Defined.

(** C10. A recognised metric entry without a value attribute raises
    nothing: its value is the default str '0', and what float('0') gives,
    0.0, is appended to the list of its code; the same entry with a value
    that float rejects raises ValueError. *)
Theorem missing_value_defaults_to_zero `{Runtime} (items : list (string * node))
  (name : string) (c : code) (zero : float) (m : metrics) :
  dict_lookup "@name" items = Some (PStr name) ->
  code_of_name name = Some c ->
  dict_lookup "@value" items = None ->
  float_of_str "0" = Some zero ->
  py_get (PDict items) "@value" (PStr "0") = Ok (PStr "0") /\
  process_metric (PDict items) m = Ok (append_to c zero m) /\
  seq_of c (append_to c zero m) = seq_of c m ++ [zero] /\
  (forall s, float_of_str s = None ->
     process_metric (PDict (items ++ [("@value", PStr s)])) m = Raise (ValueError s)).
Proof.
  intros Hname Hcode Hvalue Hzero.
  assert (Hget : py_get (PDict items) "@value" (PStr "0") = Ok (PStr "0")).
  { simpl. now rewrite Hvalue. }
  split; [ exact Hget | ]. split; [ | split ].
  - rewrite (process_metric_recognized (PDict items) c (PStr "0") m).
    + simpl. now rewrite Hzero.
    + exists name. simpl. now rewrite Hname, Hvalue.
  - apply seq_of_append_to.
  - intros s Hbad.
    rewrite (process_metric_recognized (PDict (items ++ [("@value", PStr s)])) c (PStr s) m).
    + simpl. now rewrite Hbad.
    + exists name. simpl. rewrite !dict_lookup_app, Hname, Hvalue.
      repeat split. exact Hcode.
Qed.

Lemma missing_value_defaults_to_zero_witness :
  process_metric (PDict [("@name", PStr "TLOC")]) empty_metrics =
  Ok (@mkMetrics Sample.runtime [] [] [] [0%Z]).
Proof.
  refine (proj1 (proj2 (@missing_value_defaults_to_zero Sample.runtime
            [("@name", PStr "TLOC")] "TLOC" TLOC 0%Z empty_metrics _ _ _ _)));
    reflexivity.
Defined.

(** *** Rewriting the tree under the walk

    Both tree rewritings below keep [None] and every str, map a
    list element by element and rebuild a dict value by value; they differ
    in what they do to the value of a [Method] or a [Metric] key. *)
Section Transform.
Context `{Runtime}.
Variable f : node -> node.
Variable g : string -> node -> node.
Hypothesis f_none : f PNone = PNone.
Hypothesis f_str : forall s, f (PStr s) = PStr s.
Hypothesis f_dict : forall items, f (PDict items) = PDict (map_values g items).
Hypothesis f_list : forall elems, f (PList elems) = PList (map f elems).
Hypothesis g_other :
  forall key value,
    key_is key "Method" || key_is key "Metric" = false -> g key value = f value.

Lemma bind_ok {A : Type} (r : result A) : (a <- r ;; Ok a) = r.
Proof. now destruct r. Qed.

Lemma extract_singleton (x : node) (m : metrics) :
  extract_method_metrics (PList [x]) m = extract_method_metrics x m.
Proof. rewrite extract_list. cbn [for_each]. apply bind_ok. Qed.

Lemma walk_value_as_list (key : string) (value : node) (m : metrics) :
  walk_value extract_method_metrics (key, value) m =
  for_each extract_method_metrics (as_list value) m.
Proof.
  destruct value as [ | s | items | elems ]; cbn [walk_value as_list].
  - reflexivity.
  - reflexivity.
  - cbn [for_each]. now rewrite bind_ok.
  - apply extract_list.
Qed.

Lemma dict_lookup_map_values (k : string) (items : list (string * node)) :
  dict_lookup k (map_values g items) =
  match dict_lookup k items with
  | Some v => Some (g k v)
  | None => None
  end.
Proof.
  induction items as [ | [key value] items IH ]; [ reflexivity | ].
  unfold map_values in *. cbn [map]. rewrite !dict_lookup_cons.
  destruct (String.eqb_spec k key) as [ -> | _ ]; [ reflexivity | exact IH ].
Qed.

Lemma str_eq_f (v : node) (k : string) : str_eq (f v) k = str_eq v k.
Proof.
  destruct v; rewrite ?f_none, ?f_str, ?f_dict, ?f_list; reflexivity.
Qed.

Lemma py_float_f (v : node) : py_float (f v) = py_float v.
Proof.
  destruct v; rewrite ?f_none, ?f_str, ?f_dict, ?f_list; reflexivity.
Qed.

Lemma py_contains_f (k : string) (v : node) : py_contains k (f v) = py_contains k v.
Proof.
  destruct v as [ | s | items | elems ]; rewrite ?f_none, ?f_str, ?f_dict, ?f_list;
    cbn [py_contains]; try reflexivity.
  - unfold dict_has. rewrite dict_lookup_map_values.
    now destruct (dict_lookup k items).
  - f_equal. induction elems as [ | x elems IH ]; [ reflexivity | ].
    cbn [map existsb]. now rewrite str_eq_f, IH.
Qed.

Lemma py_getitem_f (v : node) (k : string) :
  py_getitem (f v) k = rmap (g k) (py_getitem v k).
Proof.
  destruct v as [ | s | items | elems ]; rewrite ?f_none, ?f_str, ?f_dict, ?f_list;
    cbn [py_getitem]; try reflexivity.
  rewrite dict_lookup_map_values. now destruct (dict_lookup k items).
Qed.

Lemma py_get_f (v : node) (k s : string) :
  key_is k "Method" || key_is k "Metric" = false ->
  py_get (f v) k (PStr s) = rmap f (py_get v k (PStr s)).
Proof.
  intros Hk.
  destruct v as [ | s' | items | elems ]; rewrite ?f_none, ?f_str, ?f_dict, ?f_list;
    cbn [py_get]; try reflexivity.
  rewrite dict_lookup_map_values. destruct (dict_lookup k items); cbn [rmap].
  - now rewrite g_other.
  - now rewrite f_str.
Qed.

Lemma process_metric_f (entry : node) (m : metrics) :
  process_metric (f entry) m = process_metric entry m.
Proof.
  unfold process_metric. rewrite !py_get_f by reflexivity.
  destruct (py_get entry "@name" (PStr "")) as [ name | e ]; cbn [rmap bind];
    [ | reflexivity ].
  destruct (py_get entry "@value" (PStr "0")) as [ value | e ]; cbn [rmap bind];
    [ | reflexivity ].
  now rewrite !str_eq_f, py_float_f.
Qed.

Lemma walk_value_f (key : string) (value : node) (m : metrics) :
  walk_value extract_method_metrics (key, f value) m =
  match value with
  | PDict _ | PList _ => extract_method_metrics (f value) m
  | _ => Ok m
  end.
Proof.
  destruct value; rewrite ?f_none, ?f_str, ?f_dict, ?f_list; reflexivity.
Qed.

Hypothesis g_method : forall value, as_list (g "Method" value) = map f (as_list value).
Hypothesis g_metric :
  forall value m,
    for_each process_metric (as_list (g "Metric" value)) m =
    for_each process_metric (as_list value) m.

Lemma process_method_f (method : node) (m : metrics) :
  process_method (f method) m = process_method method m.
Proof.
  unfold process_method. rewrite py_contains_f.
  destruct (py_contains "Metrics" method) as [ [ | ] | e ]; cbn [bind]; try reflexivity.
  rewrite py_getitem_f.
  destruct (py_getitem method "Metrics") as [ mn | e ]; cbn [rmap bind]; [ | reflexivity ].
  rewrite (g_other "Metrics") by reflexivity.
  rewrite py_contains_f.
  destruct (py_contains "Metric" mn) as [ [ | ] | e ]; cbn [bind]; try reflexivity.
  rewrite py_getitem_f.
  destruct (py_getitem mn "Metric") as [ mm | e ]; cbn [rmap bind]; [ | reflexivity ].
  apply g_metric.
Qed.

Lemma process_methods_f (items : list (string * node)) (m : metrics) :
  process_methods (map_values g items) m = process_methods items m.
Proof.
  unfold process_methods. rewrite dict_lookup_map_values.
  destruct (dict_lookup "Method" items) as [ methods | ]; [ | reflexivity ].
  rewrite g_method, for_each_map. apply for_each_ext_in, Forall_forall.
  intros x _. apply process_method_f.
Qed.

End Transform.

Section Wrapping.
Context `{Runtime}.

(** *** Scalars and one-element lists under [Method] and [Metric] *)

Lemma wrap_singles_dict (items : list (string * node)) :
  wrap_singles (PDict items) = PDict (map_values wrap_value items).
Proof. reflexivity. Qed.

Lemma wrap_value_other (key : string) (value : node) :
  key_is key "Method" || key_is key "Metric" = false ->
  wrap_value key value = wrap_singles value.
Proof. intros Hk. unfold wrap_value, wrap_under. now rewrite Hk. Qed.

Lemma wrap_value_as_list (key : string) (value : node) :
  key_is key "Method" || key_is key "Metric" = true ->
  as_list (wrap_value key value) = map wrap_singles (as_list value).
Proof.
  intros Hk. unfold wrap_value, wrap_under. rewrite Hk.
  now destruct value.
Qed.

Lemma process_metric_wrap (entry : node) (m : metrics) :
  process_metric (wrap_singles entry) m = process_metric entry m.
Proof.
  apply (process_metric_f wrap_singles wrap_value); try reflexivity.
  apply wrap_value_other.
Qed.

Lemma process_methods_wrap (items : list (string * node)) (m : metrics) :
  process_methods (map_values wrap_value items) m = process_methods items m.
Proof.
  apply (process_methods_f wrap_singles wrap_value); try reflexivity.
  - apply wrap_value_other.
  - intros value. now apply wrap_value_as_list.
  - intros value m'. rewrite wrap_value_as_list by reflexivity.
    rewrite for_each_map. apply for_each_ext_in, Forall_forall.
    intros x _. apply process_metric_wrap.
Qed.

Lemma wrap_singles_extract (t : node) :
  forall m, extract_method_metrics (wrap_singles t) m = extract_method_metrics t m.
Proof.
  induction t as [ | s | items IH | elems IH ] using node_ind; intros m;
    try reflexivity.
  - rewrite wrap_singles_dict, !extract_dict, process_methods_wrap.
    destruct (process_methods items m) as [ m1 | e ]; cbn [bind]; [ | reflexivity ].
    unfold map_values. rewrite for_each_map.
    apply for_each_ext_in. rewrite Forall_forall in *.
    intros [key value] Hin s. specialize (IH (key, value) Hin). cbn [snd] in IH.
    unfold wrap_value, wrap_under.
    destruct ((key_is key "Method" || key_is key "Metric") && negb (isinstance_list value))
      eqn:Hwrap.
    + rewrite (walk_value_as_list key value).
      destruct value as [ | s' | items' | elems' ];
        try (rewrite andb_false_r in Hwrap; discriminate Hwrap);
        cbn [walk_value as_list]; rewrite extract_singleton, IH;
        cbn [for_each]; now rewrite ?bind_ok.
    + rewrite (walk_value_f wrap_singles wrap_value) by reflexivity.
      destruct value; try reflexivity; apply IH.
  - cbn [wrap_singles]. rewrite !extract_list, for_each_map.
    apply for_each_ext_in. exact IH.
Qed.

End Wrapping.

(** C6. A scalar under a Method or a Metric key and the one-element list
    that holds it are walked alike: two trees that differ only in such
    wrappings, that is, that are equal once every scalar Method and Metric
    value is wrapped, give the same four lists, or raise the same
    exception; so do one method with a single Metric entry and with the
    list of that entry, and one dict with a single method and with the
    list of that method. *)
Theorem single_and_singleton_alike `{Runtime} (t1 t2 : node) (m : metrics) :
  wrap_singles t1 = wrap_singles t2 ->
  extract_method_metrics t1 m = extract_method_metrics t2 m /\
  (forall before after entry rest1 rest2,
     isinstance_list entry = false ->
     process_method
       (PDict (before ++
               ("Metrics", PDict (rest1 ++ ("Metric", entry) :: rest2)) :: after)) m =
     process_method
       (PDict (before ++
               ("Metrics", PDict (rest1 ++ ("Metric", PList [entry]) :: rest2)) :: after)) m) /\
  (forall method rest1 rest2,
     isinstance_list method = false ->
     process_methods (rest1 ++ ("Method", method) :: rest2) m =
     process_methods (rest1 ++ ("Method", PList [method]) :: rest2) m).
Proof.
  intros Hsame. split; [ | split ].
  - rewrite <- (wrap_singles_extract t1), <- (wrap_singles_extract t2). now rewrite Hsame.
  - intros before after entry rest1 rest2 Hscalar.
    unfold process_method. cbn [py_contains py_getitem].
    unfold dict_has. rewrite !dict_lookup_app, !dict_lookup_cons.
    destruct (dict_lookup "Metrics" before) as [ x | ]; [ reflexivity | ].
    cbn [String.eqb Ascii.eqb Bool.eqb bind].
    cbn [py_contains py_getitem]. unfold dict_has.
    rewrite !dict_lookup_app, !dict_lookup_cons.
    destruct (dict_lookup "Metric" rest1) as [ x | ]; [ reflexivity | ].
    cbn [String.eqb Ascii.eqb Bool.eqb bind].
    now destruct entry.
  - intros method rest1 rest2 Hscalar. unfold process_methods.
    rewrite !dict_lookup_app, !dict_lookup_cons.
    destruct (dict_lookup "Method" rest1) as [ x | ]; [ reflexivity | ].
    cbn [String.eqb Ascii.eqb Bool.eqb].
    now destruct method.
Qed.

Lemma single_and_singleton_alike_witness :
  extract_method_metrics Sample.report_vg_only empty_metrics =
  extract_method_metrics Sample.report_vg_only_lists empty_metrics.
Proof.
  refine (proj1 (@single_and_singleton_alike Sample.runtime
            Sample.report_vg_only Sample.report_vg_only_lists empty_metrics _)).
  reflexivity.
Defined.

Section Removing.
Context `{Runtime}.

(** *** Taking the unrecognised entries out *)

Lemma prune_entries_dict (items : list (string * node)) :
  prune_entries (PDict items) = PDict (map_values prune_in_value items).
Proof.
  cbn [prune_entries]. f_equal. unfold map_values. apply map_ext.
  intros [key value]. unfold prune_in_value. now destruct value.
Qed.

Lemma prune_in_value_not_metric (key : string) (value : node) :
  key_is key "Metric" = false ->
  prune_in_value key value = prune_entries value.
Proof. intros Hk. unfold prune_in_value. now rewrite Hk. Qed.

Lemma prune_in_value_other (key : string) (value : node) :
  key_is key "Method" || key_is key "Metric" = false ->
  prune_in_value key value = prune_entries value.
Proof.
  intros Hk. apply orb_false_iff in Hk. destruct Hk as [ _ Hk ].
  now apply prune_in_value_not_metric.
Qed.

Lemma process_metric_prune (entry : node) (m : metrics) :
  process_metric (prune_entries entry) m = process_metric entry m.
Proof.
  apply (process_metric_f prune_entries prune_in_value); try reflexivity.
  - apply prune_entries_dict.
  - apply prune_in_value_other.
Qed.

Lemma unrecognized_prune (entry : node) :
  unrecognized (prune_entries entry) = unrecognized entry.
Proof.
  destruct entry as [ | s | items | elems ]; try reflexivity.
  rewrite prune_entries_dict. cbn [unrecognized].
  rewrite (dict_lookup_map_values prune_in_value).
  destruct (dict_lookup "@name" items) as [ name | ]; [ | reflexivity ].
  rewrite prune_in_value_other by reflexivity.
  now destruct name.
Qed.

Lemma code_of_name_none (name : string) :
  code_of_name name = None ->
  String.eqb name "VG" = false /\ String.eqb name "Ci" = false /\
  String.eqb name "Di" = false /\ String.eqb name "TLOC" = false.
Proof.
  unfold code_of_name.
  destruct (String.eqb name "VG"); [ discriminate | ].
  destruct (String.eqb name "Ci"); [ discriminate | ].
  destruct (String.eqb name "Di"); [ discriminate | ].
  destruct (String.eqb name "TLOC"); [ discriminate | ].
  auto.
Qed.

(** The dispatch drops an unrecognised entry without reading its value. *)
Lemma process_metric_unrecognized (entry : node) (m : metrics) :
  unrecognized entry = true -> process_metric entry m = Ok m.
Proof.
  destruct entry as [ | s | items | elems ]; try discriminate.
  cbn [unrecognized]. unfold process_metric. cbn [py_get].
  destruct (dict_lookup "@name" items) as [ name | ];
    destruct (dict_lookup "@value" items) as [ value | ]; cbn [bind];
    try (destruct name as [ | name | | ]; try reflexivity;
         destruct (code_of_name name) eqn:Hcode; [ discriminate | ];
         destruct (code_of_name_none name Hcode) as (Hvg & Hci & Hdi & Htloc);
         intros _; cbn [str_eq]; now rewrite Hvg, Hci, Hdi, Htloc);
    reflexivity.
Qed.

Lemma for_each_process_metric_prune (entries : list node) (m : metrics) :
  for_each process_metric
    (filter recognized_or_other (map prune_entries entries)) m =
  for_each process_metric entries m.
Proof.
  revert m. induction entries as [ | e entries IH ]; intros m; [ reflexivity | ].
  cbn [map filter]. unfold recognized_or_other at 1. rewrite unrecognized_prune.
  destruct (unrecognized e) eqn:He; cbn [negb for_each].
  - rewrite (process_metric_unrecognized e m He). cbn [bind]. apply IH.
  - rewrite process_metric_prune.
    destruct (process_metric e m); cbn [bind]; [ apply IH | reflexivity ].
Qed.

Lemma prune_entries_as_list (value : node) :
  as_list (prune_entries value) = map prune_entries (as_list value).
Proof. now destruct value. Qed.

Lemma process_methods_prune (items : list (string * node)) (m : metrics) :
  process_methods (map_values prune_in_value items) m = process_methods items m.
Proof.
  apply (process_methods_f prune_entries prune_in_value); try reflexivity.
  - apply prune_entries_dict.
  - apply prune_in_value_other.
  - intros value. rewrite prune_in_value_not_metric by reflexivity.
    apply prune_entries_as_list.
  - intros value m'. unfold prune_in_value. cbn [key_is String.eqb Ascii.eqb Bool.eqb as_list].
    apply for_each_process_metric_prune.
Qed.

(** The walk over a list of entries, the unrecognised ones taken out,
    when those have no method inside. *)
Lemma for_each_extract_prune (entries : list node) :
  Forall (fun e => plain_entries e = true ->
                   forall m, extract_method_metrics (prune_entries e) m =
                             extract_method_metrics e m) entries ->
  forallb plain_entries entries = true ->
  forallb (fun e => negb (unrecognized e) || no_method e) entries = true ->
  forall m,
    for_each extract_method_metrics
      (filter recognized_or_other (map prune_entries entries)) m =
    for_each extract_method_metrics entries m.
Proof.
  induction 1 as [ | e entries He _ IH ]; intros Hplain Hleaf m; [ reflexivity | ].
  cbn [forallb] in Hplain, Hleaf.
  apply andb_true_iff in Hplain. destruct Hplain as [ Hp Hplain ].
  apply andb_true_iff in Hleaf. destruct Hleaf as [ Hl Hleaf ].
  cbn [map filter]. unfold recognized_or_other at 1. rewrite unrecognized_prune.
  destruct (unrecognized e) eqn:Hun; cbn [negb for_each].
  - cbn [negb orb] in Hl. rewrite (no_method_extract e Hl m). cbn [bind].
    now apply IH.
  - rewrite (He Hp m).
    destruct (extract_method_metrics e m); cbn [bind]; [ now apply IH | reflexivity ].
Qed.

Lemma prune_entries_extract (t : node) :
  (plain_entries t = true ->
   forall m, extract_method_metrics (prune_entries t) m =
             extract_method_metrics t m) /\
  (forall elems, t = PList elems ->
     Forall (fun e => plain_entries e = true ->
                      forall m, extract_method_metrics (prune_entries e) m =
                                extract_method_metrics e m) elems).
Proof.
  induction t as [ | s | items IH | elems IH ] using node_ind.
  - split; [ reflexivity | discriminate ].
  - split; [ reflexivity | discriminate ].
  - split; [ | discriminate ]. intros Hplain m.
    rewrite prune_entries_dict, !extract_dict, process_methods_prune.
    destruct (process_methods items m) as [ m1 | e ]; cbn [bind]; [ | reflexivity ].
    unfold map_values. rewrite for_each_map.
    apply for_each_ext_in. cbn [plain_entries] in Hplain.
    rewrite forallb_forall in Hplain. rewrite Forall_forall in *.
    intros [key value] Hin s.
    destruct (IH (key, value) Hin) as [ IHvalue IHelems ]. cbn [snd] in IHvalue, IHelems.
    specialize (Hplain (key, value) Hin). cbn beta iota in Hplain.
    apply andb_true_iff in Hplain. destruct Hplain as [ Hpv Hleaf ].
    unfold prune_in_value. destruct (key_is key "Metric").
    + rewrite (walk_value_as_list key value). cbn [walk_value].
      rewrite extract_list. apply for_each_extract_prune.
      * destruct value as [ | s' | items' | elems' ]; cbn [as_list];
          try (constructor; [ exact IHvalue | constructor ]).
        now apply IHelems.
      * destruct value as [ | s' | items' | elems' ]; cbn [as_list forallb];
          first [ exact Hpv | now rewrite Hpv ].
      * destruct value as [ | s' | items' | elems' ]; cbn [as_list forallb];
          first [ exact Hleaf | now rewrite Hleaf ].
    + rewrite (walk_value_f prune_entries prune_in_value);
        try reflexivity; try apply prune_entries_dict.
      destruct value; try reflexivity; now apply IHvalue.
  - split.
    + intros Hplain m. cbn [prune_entries]. rewrite !extract_list, for_each_map.
      apply for_each_ext_in. cbn [plain_entries] in Hplain.
      rewrite forallb_forall in Hplain. rewrite Forall_forall in *.
      intros x Hin s. apply (IH x Hin). now apply Hplain.
    + intros elems' [= <-]. eapply Forall_impl; [ | exact IH ].
      intros x [ Hx _ ]. exact Hx.
Qed.

End Removing.

Section Restoring.
Context `{Runtime}.

(** *** The shapes xmltodict gives to what remains *)

Lemma map_kept_filter (f : node -> node) (l : list node) :
  map_kept f l = map f (filter recognized_or_other l).
Proof.
  induction l as [ | e l IH ]; [ reflexivity | ].
  cbn [map_kept filter]. unfold recognized_or_other at 1.
  destruct (unrecognized e); cbn [negb map]; now rewrite <- IH.
Qed.

Lemma remove_item_metric (f : node -> node) (key : string) (value : node) :
  key_is key "Metric" = true ->
  remove_item f (key, value) =
  kept_value key (map f (filter recognized_or_other (as_list value))).
Proof.
  intros Hkey. unfold remove_item. rewrite Hkey.
  destruct value; cbn [as_list filter]; unfold recognized_or_other;
    try (now destruct (unrecognized _)); apply f_equal, map_kept_filter.
Qed.

Lemma isinstance_list_remove (v : node) :
  isinstance_list (remove_unrecognized v) = isinstance_list v.
Proof.
  destruct v as [ | s | items | elems ]; try reflexivity.
  cbn [remove_unrecognized]. unfold restore_shape.
  destruct (length _ <? length items)%nat; [ | reflexivity ].
  destruct (flat_map _ items) as [ | [key [ | s | | ]] [ | ] ]; try reflexivity.
  now destruct (key_is key "#text").
Qed.

Lemma isinstance_list_prune (v : node) :
  isinstance_list (prune_entries v) = isinstance_list v.
Proof. now destruct v. Qed.

(** Under a [Metric] key, what remains and its list are wrapped alike. *)
Lemma kept_value_wrap (key : string) (remaining : list node) :
  key_is key "Metric" = true ->
  remaining <> [] ->
  exists v,
    kept_value key remaining = [(key, v)] /\
    wrap_value key v = PList (map wrap_singles remaining).
Proof.
  intros Hkey Hsome. unfold wrap_value, wrap_under. rewrite Hkey, orb_true_r.
  destruct remaining as [ | x [ | y rest ] ]; [ congruence | | ].
  - cbn [kept_value]. destruct (isinstance_list x) eqn:Hx.
    + eexists. split; [ reflexivity | reflexivity ].
    + eexists. split; [ reflexivity | ]. now rewrite Hx.
  - eexists. split; reflexivity.
Qed.

Lemma kept_entries_alike (entries : list node) :
  Forall (fun e => keeps_an_entry e = true ->
                   wrap_singles (remove_unrecognized e) = wrap_singles (prune_entries e))
         entries ->
  forallb (fun e => unrecognized e || keeps_an_entry e) entries = true ->
  map wrap_singles (map remove_unrecognized (filter recognized_or_other entries)) =
  map wrap_singles (filter recognized_or_other (map prune_entries entries)).
Proof.
  induction 1 as [ | e entries He _ IH ]; intros Hkeeps; [ reflexivity | ].
  cbn [forallb] in Hkeeps. apply andb_true_iff in Hkeeps. destruct Hkeeps as [ Hk Hkeeps ].
  assert (Hsame : recognized_or_other (prune_entries e) = recognized_or_other e)
    by (unfold recognized_or_other; now rewrite unrecognized_prune).
  cbn [map filter]. rewrite Hsame.
  destruct (recognized_or_other e) eqn:Hkept; [ | now apply IH ].
  unfold recognized_or_other in Hkept. apply negb_true_iff in Hkept.
  rewrite Hkept in Hk. cbn [orb] in Hk.
  cbn [map]. rewrite (He Hk). f_equal. now apply IH.
Qed.

Lemma remove_alike (t : node) :
  (keeps_an_entry t = true ->
   wrap_singles (remove_unrecognized t) = wrap_singles (prune_entries t)) /\
  (forall elems, t = PList elems ->
     Forall (fun e => keeps_an_entry e = true ->
                      wrap_singles (remove_unrecognized e) = wrap_singles (prune_entries e))
            elems).
Proof.
  induction t as [ | s | items IH | elems IH ] using node_ind.
  - split; [ reflexivity | discriminate ].
  - split; [ reflexivity | discriminate ].
  - split; [ | discriminate ]. intros Hkeeps.
    cbn [keeps_an_entry] in Hkeeps.
    assert (Hitems : exists items',
               flat_map (remove_item remove_unrecognized) items = items' /\
               length items' = length items /\
               map_values wrap_value items' =
               map_values wrap_value (map_values prune_in_value items)).
    { induction items as [ | [key value] items IHitems ].
      - exists []. repeat split.
      - cbn [forallb] in Hkeeps. apply andb_true_iff in Hkeeps.
        destruct Hkeeps as [ Hitem Hkeeps ].
        inversion IH as [ | ? ? Hvalue Hothers ]; subst. cbn [snd] in Hvalue.
        destruct Hvalue as [ IHvalue IHelems ].
        destruct (IHitems Hothers Hkeeps) as (items' & Hflat & Hlen & Hwrap).
        assert (Hone : exists v,
                   remove_item remove_unrecognized (key, value) = [(key, v)] /\
                   wrap_value key v = wrap_value key (prune_in_value key value)).
        { cbn beta iota in Hitem.
          destruct (key_is key "Metric") eqn:Hkey.
          - rewrite (remove_item_metric _ key value Hkey).
            assert (Hsome : map remove_unrecognized
                              (filter recognized_or_other (as_list value)) <> [] /\
                            map wrap_singles
                              (map remove_unrecognized
                                 (filter recognized_or_other (as_list value))) =
                            map wrap_singles
                              (filter recognized_or_other
                                 (map prune_entries (as_list value)))).
            { destruct (isinstance_list value) eqn:Hshape.
              - destruct value as [ | s | items0 | elems ]; try discriminate.
                cbn [as_list].
                apply andb_true_iff in Hitem. destruct Hitem as [ Hex Hall ]. split.
                + apply existsb_exists in Hex. destruct Hex as (e & Hin & Hkept).
                  intros Hnil. apply map_eq_nil in Hnil.
                  assert (Hin' : In e (filter recognized_or_other elems))
                    by (apply filter_In; auto).
                  rewrite Hnil in Hin'. destruct Hin'.
                + apply kept_entries_alike; [ now apply IHelems | exact Hall ].
              - assert (Has : as_list value = [value])
                  by (destruct value; try reflexivity; discriminate).
                assert (Hitem' : recognized_or_other value && keeps_an_entry value = true)
                  by (destruct value; try exact Hitem; discriminate).
                apply andb_true_iff in Hitem'. destruct Hitem' as [ Hkept Hsub ].
                assert (Hsame : recognized_or_other (prune_entries value) =
                                recognized_or_other value)
                  by (unfold recognized_or_other; now rewrite unrecognized_prune).
                rewrite Has. cbn [map filter]. rewrite Hsame, Hkept. cbn [map].
                split; [ discriminate | now rewrite (IHvalue Hsub) ]. }
            destruct Hsome as [ Hsome Halike ].
            destruct (kept_value_wrap key _ Hkey Hsome) as (v & Hv & Hwv).
            exists v. split; [ exact Hv | ]. rewrite Hwv.
            unfold prune_in_value. rewrite Hkey.
            unfold wrap_value, wrap_under. cbn [isinstance_list negb].
            rewrite andb_false_r. cbn [wrap_singles]. now rewrite Halike.
          - exists (remove_unrecognized value). unfold remove_item. rewrite Hkey.
            split; [ reflexivity | ].
            rewrite (prune_in_value_not_metric key value Hkey).
            unfold wrap_value, wrap_under.
            rewrite isinstance_list_remove, isinstance_list_prune.
            now rewrite (IHvalue Hitem). }
        destruct Hone as (v & Hv & Hwv).
        exists ((key, v) :: items'). cbn [flat_map]. rewrite Hv, Hflat. cbn [app].
        repeat split.
        + cbn [length]. now rewrite Hlen.
        + unfold map_values in *. cbn [map]. now rewrite Hwv, Hwrap. }
    destruct Hitems as (items' & Hflat & Hlen & Hwrap).
    cbn [remove_unrecognized]. rewrite Hflat. unfold restore_shape.
    rewrite Hlen, Nat.ltb_irrefl.
    now rewrite prune_entries_dict, !wrap_singles_dict, Hwrap.
  - split.
    + intros Hkeeps. cbn [keeps_an_entry] in Hkeeps.
      cbn [remove_unrecognized prune_entries wrap_singles]. f_equal.
      rewrite !map_map. apply map_ext_in. intros x Hin.
      rewrite forallb_forall in Hkeeps. rewrite Forall_forall in IH.
      now apply (IH x Hin), Hkeeps.
    + intros elems' [= <-]. eapply Forall_impl; [ | exact IH ].
      intros x [ Hx _ ]. exact Hx.
Qed.

Lemma remove_unrecognized_extract (t : node) (m : metrics) :
  keeps_an_entry t = true ->
  plain_entries t = true ->
  extract_method_metrics (remove_unrecognized t) m = extract_method_metrics t m.
Proof.
  intros Hkeeps Hplain.
  rewrite <- (wrap_singles_extract (remove_unrecognized t)).
  rewrite (proj1 (remove_alike t) Hkeeps).
  rewrite wrap_singles_extract.
  now apply prune_entries_extract.
Qed.

End Restoring.

Section Placing.
Context `{Runtime}.

(** *** The place of the Metric key in its dict *)

Lemma dict_lookup_filter_same (k : string) (q : string * node -> bool)
  (items : list (string * node)) :
  (forall kv, String.eqb k (fst kv) = true -> q kv = true) ->
  dict_lookup k (filter q items) = dict_lookup k items.
Proof.
  intros Hsub. induction items as [ | [key value] items IH ]; [ reflexivity | ].
  cbn [filter]. destruct (q (key, value)) eqn:Hq.
  - rewrite !dict_lookup_cons. now rewrite IH.
  - rewrite dict_lookup_cons. destruct (String.eqb k key) eqn:Hk; [ | exact IH ].
    rewrite (Hsub (key, value) Hk) in Hq. discriminate Hq.
Qed.

Lemma dict_lookup_filter_none (k : string) (q : string * node -> bool)
  (items : list (string * node)) :
  (forall kv, String.eqb k (fst kv) = true -> q kv = false) ->
  dict_lookup k (filter q items) = None.
Proof.
  intros Hsub. induction items as [ | [key value] items IH ]; [ reflexivity | ].
  cbn [filter]. destruct (q (key, value)) eqn:Hq; [ | exact IH ].
  rewrite dict_lookup_cons. destruct (String.eqb k key) eqn:Hk; [ | exact IH ].
  rewrite (Hsub (key, value) Hk) in Hq. discriminate Hq.
Qed.

Lemma is_metric_item_key (k : string) (kv : string * node) :
  String.eqb k (fst kv) = true -> is_metric_item kv = key_is k "Metric".
Proof. intros Hk. apply String.eqb_eq in Hk. unfold is_metric_item. now rewrite Hk. Qed.

Lemma dict_lookup_sink (k : string) (items : list (string * node)) :
  dict_lookup k (sink_items items) = dict_lookup k items.
Proof.
  unfold sink_items. rewrite dict_lookup_app.
  destruct (key_is k "Metric") eqn:Hkey.
  - rewrite dict_lookup_filter_none.
    + apply dict_lookup_filter_same. intros kv Hk.
      now rewrite (is_metric_item_key k kv Hk).
    + intros kv Hk. unfold is_other_item. now rewrite (is_metric_item_key k kv Hk), Hkey.
  - rewrite dict_lookup_filter_same.
    + destruct (dict_lookup k items); [ reflexivity | ].
      apply dict_lookup_filter_none. intros kv Hk.
      now rewrite (is_metric_item_key k kv Hk).
    + intros kv Hk. unfold is_other_item. now rewrite (is_metric_item_key k kv Hk), Hkey.
Qed.

Lemma forallb_sink (p : string * node -> bool) (items : list (string * node)) :
  forallb p (sink_items items) = forallb p items.
Proof.
  unfold sink_items. rewrite forallb_app.
  induction items as [ | kv items IH ]; [ reflexivity | ].
  cbn [filter]. unfold is_other_item at 1.
  destruct (is_metric_item kv); cbn [negb forallb]; rewrite <- IH;
    destruct (p kv), (forallb p (filter is_other_item items)),
      (forallb p (filter is_metric_item items)); reflexivity.
Qed.

(** Items on which the body does nothing can be taken in any place. *)
Lemma for_each_sink {S : Type} (f : string * node -> S -> result S)
  (items : list (string * node)) :
  (forall kv, In kv items -> is_metric_item kv = true -> forall s, f kv s = Ok s) ->
  forall s, for_each f (sink_items items) s = for_each f items s.
Proof.
  intros Hskip s. unfold sink_items. rewrite for_each_app.
  assert (Hothers : forall s0, for_each f (filter is_other_item items) s0 =
                               for_each f items s0).
  { clear s. induction items as [ | kv items IH ]; intros s0; [ reflexivity | ].
    cbn [filter]. unfold is_other_item at 1.
    destruct (is_metric_item kv) eqn:Hkv; cbn [negb for_each].
    - rewrite (Hskip kv (or_introl eq_refl) Hkv). cbn [bind].
      apply IH. intros x Hin. apply Hskip. now right.
    - destruct (f kv s0); cbn [bind]; [ | reflexivity ].
      apply IH. intros x Hin. apply Hskip. now right. }
  rewrite Hothers. destruct (for_each f items s) as [ s1 | e ]; cbn [bind];
    [ | reflexivity ].
  apply for_each_skip. apply Forall_forall. intros kv Hin.
  apply filter_In in Hin. destruct Hin as [ Hin Hkv ]. now apply Hskip.
Qed.

Lemma forallb_map_in {A B : Type} (h : A -> B) (p : B -> bool) (q : A -> bool)
  (l : list A) :
  (forall a, In a l -> p (h a) = q a) ->
  forallb p (map h l) = forallb q l.
Proof.
  induction l as [ | a l IH ]; intros Hsame; [ reflexivity | ].
  cbn [map forallb]. rewrite (Hsame a (or_introl eq_refl)). f_equal.
  apply IH. intros x Hin. apply Hsame. now right.
Qed.

Lemma metric_last_lookup (k : string) (items : list (string * node)) :
  dict_lookup k (sink_items (map_values (fun _ value => metric_last value) items)) =
  match dict_lookup k items with
  | Some v => Some (metric_last v)
  | None => None
  end.
Proof. now rewrite dict_lookup_sink, dict_lookup_map_values. Qed.

Lemma str_eq_last (v : node) (k : string) : str_eq (metric_last v) k = str_eq v k.
Proof. now destruct v. Qed.

Lemma py_float_last (v : node) : py_float (metric_last v) = py_float v.
Proof. now destruct v. Qed.

Lemma as_list_last (v : node) : as_list (metric_last v) = map metric_last (as_list v).
Proof. now destruct v. Qed.

Lemma py_contains_last (k : string) (v : node) :
  py_contains k (metric_last v) = py_contains k v.
Proof.
  destruct v as [ | s | items | elems ]; try reflexivity;
    cbn [metric_last py_contains]; f_equal.
  - unfold dict_has. rewrite metric_last_lookup. now destruct (dict_lookup k items).
  - induction elems as [ | x elems IH ]; [ reflexivity | ].
    cbn [map existsb]. now rewrite str_eq_last, IH.
Qed.

Lemma py_getitem_last (v : node) (k : string) :
  py_getitem (metric_last v) k = rmap metric_last (py_getitem v k).
Proof.
  destruct v as [ | s | items | elems ]; try reflexivity.
  cbn [metric_last py_getitem]. rewrite metric_last_lookup.
  now destruct (dict_lookup k items).
Qed.

Lemma py_get_last (v : node) (k s : string) :
  py_get (metric_last v) k (PStr s) = rmap metric_last (py_get v k (PStr s)).
Proof.
  destruct v as [ | s' | items | elems ]; try reflexivity.
  cbn [metric_last py_get]. rewrite metric_last_lookup.
  now destruct (dict_lookup k items).
Qed.

Lemma process_metric_last (entry : node) (m : metrics) :
  process_metric (metric_last entry) m = process_metric entry m.
Proof.
  unfold process_metric. rewrite !py_get_last.
  destruct (py_get entry "@name" (PStr "")) as [ name | e ]; cbn [rmap bind];
    [ | reflexivity ].
  destruct (py_get entry "@value" (PStr "0")) as [ value | e ]; cbn [rmap bind];
    [ | reflexivity ].
  now rewrite !str_eq_last, py_float_last.
Qed.

Lemma process_method_last (method : node) (m : metrics) :
  process_method (metric_last method) m = process_method method m.
Proof.
  unfold process_method. rewrite py_contains_last.
  destruct (py_contains "Metrics" method) as [ [ | ] | e ]; cbn [bind]; try reflexivity.
  rewrite py_getitem_last.
  destruct (py_getitem method "Metrics") as [ mn | e ]; cbn [rmap bind]; [ | reflexivity ].
  rewrite py_contains_last.
  destruct (py_contains "Metric" mn) as [ [ | ] | e ]; cbn [bind]; try reflexivity.
  rewrite py_getitem_last.
  destruct (py_getitem mn "Metric") as [ mm | e ]; cbn [rmap bind]; [ | reflexivity ].
  rewrite as_list_last, for_each_map.
  apply for_each_ext_in, Forall_forall. intros x _. apply process_metric_last.
Qed.

Lemma process_methods_last (items : list (string * node)) (m : metrics) :
  process_methods (sink_items (map_values (fun _ value => metric_last value) items)) m =
  process_methods items m.
Proof.
  unfold process_methods. rewrite metric_last_lookup.
  destruct (dict_lookup "Method" items) as [ methods | ]; [ | reflexivity ].
  rewrite as_list_last, for_each_map.
  apply for_each_ext_in, Forall_forall. intros x _. apply process_method_last.
Qed.

Lemma no_method_last (v : node) : no_method (metric_last v) = no_method v.
Proof.
  induction v as [ | s | items IH | elems IH ] using node_ind; try reflexivity.
  - cbn [metric_last no_method]. unfold dict_has. rewrite metric_last_lookup.
    rewrite forallb_sink. f_equal; [ now destruct (dict_lookup "Method" items) | ].
    unfold map_values. apply forallb_map_in. rewrite Forall_forall in IH.
    intros [key value] Hin. apply (IH (key, value) Hin).
  - cbn [metric_last no_method]. apply forallb_map_in.
    rewrite Forall_forall in IH. exact IH.
Qed.

Lemma neutral_metrics_last (v : node) :
  neutral_metrics (metric_last v) = neutral_metrics v.
Proof.
  induction v as [ | s | items IH | elems IH ] using node_ind; try reflexivity.
  - cbn [metric_last neutral_metrics]. rewrite forallb_sink.
    unfold map_values. apply forallb_map_in. rewrite Forall_forall in IH.
    intros [key value] Hin. specialize (IH (key, value) Hin). cbn [snd] in IH.
    now rewrite IH, no_method_last.
  - cbn [metric_last neutral_metrics]. apply forallb_map_in.
    rewrite Forall_forall in IH. exact IH.
Qed.

Lemma metric_last_extract (t : node) :
  neutral_metrics t = true ->
  forall m, extract_method_metrics (metric_last t) m = extract_method_metrics t m.
Proof.
  induction t as [ | s | items IH | elems IH ] using node_ind; intros Hneutral m;
    try reflexivity.
  - cbn [metric_last]. rewrite !extract_dict, process_methods_last.
    destruct (process_methods items m) as [ m1 | e ]; cbn [bind]; [ | reflexivity ].
    cbn [neutral_metrics] in Hneutral. rewrite forallb_forall in Hneutral.
    rewrite Forall_forall in IH.
    assert (Hitem : forall kv, In kv items -> forall s,
              walk_value extract_method_metrics
                (let (key, value) := kv in (key, metric_last value)) s =
              walk_value extract_method_metrics kv s).
    { intros [key value] Hin s. specialize (IH (key, value) Hin).
      specialize (Hneutral (key, value) Hin). cbn [snd] in IH. cbn beta iota in Hneutral.
      apply andb_true_iff in Hneutral. destruct Hneutral as [ Hvalue _ ].
      destruct value; try reflexivity; now apply IH. }
    rewrite for_each_sink.
    + unfold map_values. rewrite for_each_map.
      apply for_each_ext_in, Forall_forall. intros kv Hin s. now apply Hitem.
    + unfold map_values. intros kv Hin Hmetric s.
      apply in_map_iff in Hin. destruct Hin as ([key value] & <- & Hin).
      rewrite (Hitem (key, value) Hin).
      specialize (Hneutral (key, value) Hin). cbn beta iota in Hneutral.
      unfold is_metric_item in Hmetric. cbn [fst] in Hmetric. rewrite Hmetric in Hneutral.
      apply andb_true_iff in Hneutral. destruct Hneutral as [ _ Hno ].
      destruct value; try reflexivity; cbn [walk_value]; now apply no_method_extract.
  - cbn [metric_last]. rewrite !extract_list, for_each_map.
    cbn [neutral_metrics] in Hneutral. rewrite forallb_forall in Hneutral.
    rewrite Forall_forall in IH.
    apply for_each_ext_in, Forall_forall. intros x Hin s. now apply IH, Hneutral.
Qed.

(** Two trees that differ in the place of the Metric key only are walked
    alike when no metric entry of theirs has a method inside. *)
Lemma same_metric_last_extract (a b : node) (m : metrics) :
  neutral_metrics a = true ->
  metric_last b = metric_last a ->
  extract_method_metrics b m = extract_method_metrics a m.
Proof.
  intros Hneutral Hsame.
  rewrite <- (metric_last_extract b), Hsame; [ now apply metric_last_extract | ].
  now rewrite <- neutral_metrics_last, Hsame, neutral_metrics_last.
Qed.

End Placing.

(** C7, as stated, fails: an entry with an unknown code that has a method
    inside is walked like any other dict, and the cyclomatic complexity of
    that method is collected; in the document without the entry it is
    not. *)
Lemma unrecognized_entry_with_method_inside :
  remove_unrecognized Sample.report_nested = Sample.report_nested_removed /\
  extract_method_metrics Sample.report_nested empty_metrics = Ok Sample.metrics_nested /\
  extract_method_metrics (remove_unrecognized Sample.report_nested) empty_metrics =
  Ok Sample.metrics_nested_removed /\
  extract_method_metrics (remove_unrecognized Sample.report_nested) empty_metrics <>
  extract_method_metrics Sample.report_nested empty_metrics.
Proof.
  assert (Hwithout :
    extract_method_metrics (remove_unrecognized Sample.report_nested) empty_metrics =
    Ok Sample.metrics_nested_removed) by reflexivity.
  assert (Hwith :
    extract_method_metrics Sample.report_nested empty_metrics =
    Ok Sample.metrics_nested) by reflexivity.
  split; [ reflexivity | ]. split; [ exact Hwith | ]. split; [ exact Hwithout | ].
  rewrite Hwithout, Hwith. intros Heq.
  apply (f_equal (fun r => match r with
                           | Ok d => length (mccabe_cyclomatic_complexity d)
                           | Raise _ => 0
                           end)) in Heq.
  discriminate Heq.
Qed.

(** It fails as well when the removal empties an element: the Metrics of a
    method whose only entry has an unknown code becomes [None], on which
    line 34 raises, while the walk of the document as it was returns. *)
Lemma removal_that_empties_metrics :
  remove_unrecognized Sample.report_unknown_only = Sample.report_unknown_only_removed /\
  extract_method_metrics Sample.report_unknown_only empty_metrics = Ok empty_metrics /\
  extract_method_metrics (remove_unrecognized Sample.report_unknown_only) empty_metrics =
  Raise TypeError.
Proof. split; [ reflexivity | ]. split; reflexivity. Qed.

(** And it fails when a metric entry that is kept has a method inside and
    the removal moves the Metric key behind a key that holds methods: the
    values are the same, in another order. *)
Lemma removal_that_moves_metric_key :
  metric_last Sample.report_interleaved_removed =
  metric_last (remove_unrecognized Sample.report_interleaved) /\
  extract_method_metrics Sample.report_interleaved empty_metrics =
  Ok (@mkMetrics Sample.runtime [9; 5]%Z [] [] []) /\
  extract_method_metrics Sample.report_interleaved_removed empty_metrics =
  Ok (@mkMetrics Sample.runtime [5; 9]%Z [] [] []).
Proof. split; [ reflexivity | ]. split; reflexivity. Qed.

(** C7, amended. The dispatch drops every metric entry whose name is none
    of VG, Ci, Di, TLOC, without reading its value.  When no metric entry
    has a Method key inside (neither those removed nor those that remain)
    and every Metric key keeps an entry, the walk over the tree gives the
    same four lists, or raises the same exception, as the walk over the
    tree [t'] of the document with the unrecognised entries removed: the
    tree [remove_unrecognized t], with the Metric key of a dict at the
    place of the first child that remains. *)
Theorem unrecognized_entries_ignored `{Runtime} (t t' : node) (m : metrics) :
  plain_entries t = true ->
  keeps_an_entry t = true ->
  neutral_metrics (remove_unrecognized t) = true ->
  metric_last t' = metric_last (remove_unrecognized t) ->
  extract_method_metrics t' m = extract_method_metrics t m /\
  (forall entry s, unrecognized entry = true -> process_metric entry s = Ok s) /\
  (forall entries s,
     for_each process_metric (filter recognized_or_other entries) s =
     for_each process_metric entries s).
Proof.
  intros Hplain Hkeeps Hneutral Hplace. split; [ | split ].
  - rewrite (same_metric_last_extract (remove_unrecognized t) t' m Hneutral Hplace).
    now apply remove_unrecognized_extract.
  - intros entry s. apply process_metric_unrecognized.
  - intros entries. induction entries as [ | e entries IH ]; intros s; [ reflexivity | ].
    cbn [filter]. unfold recognized_or_other at 1.
    destruct (unrecognized e) eqn:He; cbn [negb for_each].
    + rewrite (process_metric_unrecognized e s He). cbn [bind]. apply IH.
    + destruct (process_metric e s); cbn [bind]; [ apply IH | reflexivity ].
Qed.

Lemma unrecognized_entries_ignored_witness :
  remove_unrecognized Sample.report_two = Sample.report_two_removed /\
  extract_method_metrics Sample.report_two_removed empty_metrics =
  extract_method_metrics Sample.report_two empty_metrics.
Proof.
  split; [ reflexivity | ].
  refine (proj1 (@unrecognized_entries_ignored Sample.runtime
            Sample.report_two Sample.report_two_removed empty_metrics _ _ _ _));
    reflexivity.
Defined.

(** * Runs on the samples *)

Example readable_names :
  map (fun kv => title (replace_underscore (fst kv))) (metrics_items empty_metrics) =
  [ "Mccabe Cyclomatic Complexity"; "System Complexity";
    "Data Complexity"; "Total Lines Of Code" ].
Proof. reflexivity. Qed.

Example banner_width : String.length (str_mul "=" 60) = 60.
Proof. reflexivity. Qed.

Example report_two_parsed :
  parse_jasome_xml (Sample.one_file "report.xml" Sample.report_two) "report.xml" =
  Ok (Sample.results_two, Sample.metrics_two).
Proof. reflexivity. Qed.

Example one_sample_section :
  display_metric "total_lines_of_code" [40%Z] =
  ([ Print (nl ++ "Total Lines Of Code:");
     PrintNumber "  Min:    " (PyFloat 40%Z);
     PrintNumber "  Max:    " (PyFloat 40%Z);
     PrintNumber "  Median: " (PyFloat 40%Z);
     Print "  StdDev: N/A" ], None).
Proof. reflexivity. Qed.

Example bad_value_run :
  main (Sample.one_file "report.xml" Sample.report_bad_value) "report.xml" =
  ([ PrintError (ValueError "high"); PrintExc (ValueError "high") ], Returned).
Proof. reflexivity. Qed.

Example str_method_raises :
  extract_method_metrics (PDict [("Method", PStr "see Metrics")]) empty_metrics =
  Raise TypeError.
Proof. reflexivity. Qed.

Example empty_metric_element_raises :
  extract_method_metrics
    (PDict [("Method", PDict [("Metrics", PDict [("Metric", PNone)])])]) empty_metrics =
  Raise AttributeError.
Proof. reflexivity. Qed.

(** * The walk and the report, further *)

Section Exact.
Context `{Runtime}.

(** *** What a walk that returns has collected *)

Lemma seq_of_append_to_any (c c0 : code) (v : float) (m : metrics) :
  seq_of c (append_to c0 v m) = seq_of c m ++ (if code_eqb c c0 then [v] else []).
Proof. destruct c, c0; simpl; now rewrite ?app_nil_r. Qed.

Lemma entry_code_none_unrecognized (items : list (string * node)) :
  entry_code (PDict items) = None -> unrecognized (PDict items) = true.
Proof.
  unfold entry_code, unrecognized.
  destruct (dict_lookup "@name" items) as [ [ | name | | ] | ]; try reflexivity.
  now intros ->.
Qed.

Lemma entry_code_has (items : list (string * node)) (c : code) :
  entry_code (PDict items) = Some c ->
  entry_has (PDict items) c
    match dict_lookup "@value" items with Some v => v | None => PStr "0" end.
Proof.
  unfold entry_code, entry_has. cbn [py_get].
  destruct (dict_lookup "@name" items) as [ [ | name | | ] | ]; try discriminate.
  intros Hcode. exists name. repeat split; [ exact Hcode | ].
  now destruct (dict_lookup "@value" items).
Qed.

Lemma py_float_entry (items : list (string * node)) :
  py_float match dict_lookup "@value" items with Some v => v | None => PStr "0" end =
  match entry_float (PDict items) with
  | Some v => Ok v
  | None =>
      match dict_lookup "@value" items with
      | Some (PStr s) => Raise (ValueError s)
      | Some _ => Raise TypeError
      | None => Raise (ValueError "0")
      end
  end.
Proof.
  unfold entry_float, py_float.
  destruct (dict_lookup "@value" items) as [ [ | s | | ] | ]; reflexivity.
Qed.

Lemma process_metric_exact (entry : node) (m m' : metrics) :
  process_metric entry m = Ok m' ->
  forall c, seq_of c m' = seq_of c m ++ entry_values c entry.
Proof.
  destruct entry as [ | s | items | elems ]; try discriminate.
  intros Hrun c. unfold entry_values.
  destruct (entry_code (PDict items)) as [ c0 | ] eqn:Hcode.
  - rewrite (process_metric_recognized _ _ _ m (entry_code_has items c0 Hcode)) in Hrun.
    rewrite py_float_entry in Hrun.
    destruct (entry_float (PDict items)) as [ v | ].
    + cbn [bind] in Hrun. injection Hrun as <-. apply seq_of_append_to_any.
    + destruct (dict_lookup "@value" items) as [ [ | s | | ] | ]; discriminate Hrun.
  - rewrite (process_metric_unrecognized (PDict items) m
               (entry_code_none_unrecognized items Hcode)) in Hrun.
    injection Hrun as <-. now rewrite app_nil_r.
Qed.

(** A loop whose bodies each append what [V] says appends their sum. *)
Lemma for_each_exact {A : Type} (f : A -> metrics -> result metrics)
  (V : code -> A -> list float) (l : list A) :
  (forall a s s', In a l -> f a s = Ok s' ->
                  forall c, seq_of c s' = seq_of c s ++ V c a) ->
  forall s s', for_each f l s = Ok s' ->
               forall c, seq_of c s' = seq_of c s ++ flat_map (V c) l.
Proof.
  induction l as [ | a l IH ]; intros Hbody s s' Hrun c; simpl in Hrun.
  - injection Hrun as <-. now rewrite app_nil_r.
  - destruct (f a s) as [ s1 | e ] eqn:Ha; simpl in Hrun; [ | discriminate ].
    cbn [flat_map]. rewrite app_assoc, <- (Hbody a s s1 (or_introl eq_refl) Ha c).
    apply IH; [ | exact Hrun ].
    intros x t t' Hin. apply Hbody. now right.
Qed.

Lemma process_method_exact (method : node) (m m' : metrics) :
  process_method method m = Ok m' ->
  forall c, seq_of c m' = seq_of c m ++ method_values c method.
Proof.
  unfold process_method, method_values, method_entries.
  destruct method as [ | s | mitems | elems ]; cbn [py_contains py_getitem bind].
  - discriminate.
  - destruct (is_substring "Metrics" s); [ discriminate | ].
    intros [= <-] c. now rewrite app_nil_r.
  - unfold dict_has.
    destruct (dict_lookup "Metrics" mitems) as [ mn | ]; cbn [bind];
      [ | intros [= <-] c; now rewrite app_nil_r ].
    destruct mn as [ | s | nitems | elems ]; cbn [py_contains py_getitem bind].
    + discriminate.
    + destruct (is_substring "Metric" s); [ discriminate | ].
      intros [= <-] c. now rewrite app_nil_r.
    + unfold dict_has.
      destruct (dict_lookup "Metric" nitems) as [ mm | ]; cbn [bind];
        [ | intros [= <-] c; now rewrite app_nil_r ].
      apply (for_each_exact process_metric entry_values).
      intros a s s' _. apply process_metric_exact.
    + destruct (existsb (fun x => str_eq x "Metric") elems); [ discriminate | ].
      intros [= <-] c. now rewrite app_nil_r.
  - destruct (existsb (fun x => str_eq x "Metrics") elems); [ discriminate | ].
    intros [= <-] c. now rewrite app_nil_r.
Qed.

Lemma extract_exact (t : node) :
  forall m m', extract_method_metrics t m = Ok m' ->
               forall c, seq_of c m' = seq_of c m ++ code_values c t.
Proof.
  induction t as [ | s | items IH | elems IH ] using node_ind; intros m m' Hrun c.
  - injection Hrun as <-. cbn [code_values]. now rewrite app_nil_r.
  - injection Hrun as <-. cbn [code_values]. now rewrite app_nil_r.
  - rewrite extract_dict in Hrun. cbn [code_values].
    destruct (process_methods items m) as [ m1 | e ] eqn:Hm1; cbn [bind] in Hrun;
      [ | discriminate ].
    rewrite app_assoc.
    assert (Hfirst : seq_of c m1 = seq_of c m ++
                     match dict_lookup "Method" items with
                     | Some methods => flat_map (method_values c) (as_list methods)
                     | None => []
                     end).
    { unfold process_methods in Hm1.
      destruct (dict_lookup "Method" items) as [ methods | ].
      - apply (for_each_exact process_method method_values _
                 (fun a s s' _ => process_method_exact a s s') m m1 Hm1).
      - injection Hm1 as <-. now rewrite app_nil_r. }
    rewrite <- Hfirst.
    apply (for_each_exact (walk_value extract_method_metrics)
             (fun c kv => let (_, value) := kv in code_values c value) items);
      [ | exact Hrun ].
    rewrite Forall_forall in IH.
    intros [key value] s s' Hin Hs c'. specialize (IH (key, value) Hin). cbn [snd] in IH.
    destruct value; try (now apply IH);
      cbn [walk_value] in Hs; injection Hs as <-; cbn [code_values]; now rewrite app_nil_r.
  - rewrite extract_list in Hrun. cbn [code_values].
    apply (for_each_exact extract_method_metrics code_values elems); [ | exact Hrun ].
    rewrite Forall_forall in IH. intros a s s' Hin. now apply IH.
Qed.

End Exact.

Section Sound.
Context `{Runtime}.

(** *** Trees on which the walk returns *)

Lemma for_each_returns {A S : Type} (f : A -> S -> result S) (l : list A) :
  (forall a s, In a l -> exists s', f a s = Ok s') ->
  forall s, exists s', for_each f l s = Ok s'.
Proof.
  induction l as [ | a l IH ]; intros Hbody s; simpl.
  - now exists s.
  - destruct (Hbody a s (or_introl eq_refl)) as [ s1 -> ]. simpl.
    apply IH. intros x t Hin. apply Hbody. now right.
Qed.

Lemma good_entry_returns (entry : node) (m : metrics) :
  good_entry entry = true -> exists m', process_metric entry m = Ok m'.
Proof.
  destruct entry as [ | s | items | elems ]; try discriminate.
  unfold good_entry.
  destruct (entry_code (PDict items)) as [ c | ] eqn:Hcode.
  - destruct (entry_float (PDict items)) as [ v | ] eqn:Hv; [ | discriminate ].
    intros _. rewrite (process_metric_recognized _ _ _ m (entry_code_has items c Hcode)).
    rewrite py_float_entry, Hv. cbn [bind]. eauto.
  - intros _. exists m.
    apply process_metric_unrecognized, entry_code_none_unrecognized, Hcode.
Qed.

Lemma good_method_returns (method : node) (m : metrics) :
  good_method method = true -> exists m', process_method method m = Ok m'.
Proof.
  destruct method as [ | s | mitems | elems ]; try discriminate.
  unfold good_method, method_entries, process_method.
  cbn [py_contains py_getitem]. unfold dict_has.
  destruct (dict_lookup "Metrics" mitems) as [ mn | ]; cbn [bind]; [ | eauto ].
  destruct mn as [ | s | nitems | elems ]; try discriminate.
  cbn [py_contains py_getitem]. unfold dict_has.
  destruct (dict_lookup "Metric" nitems) as [ mm | ]; cbn [bind]; [ | eauto ].
  intros Hgood. rewrite forallb_forall in Hgood.
  apply for_each_returns. intros a s Hin. now apply good_entry_returns, Hgood.
Qed.

Lemma well_formed_returns (t : node) :
  well_formed t = true -> forall m, exists m', extract_method_metrics t m = Ok m'.
Proof.
  induction t as [ | s | items IH | elems IH ] using node_ind; intros Hwf m.
  - now exists m.
  - now exists m.
  - cbn [well_formed] in Hwf. apply andb_true_iff in Hwf. destruct Hwf as [ Hmethods Hrest ].
    rewrite extract_dict.
    assert (Hfirst : exists m1, process_methods items m = Ok m1).
    { unfold process_methods. destruct (dict_lookup "Method" items) as [ methods | ];
        [ | eauto ].
      rewrite forallb_forall in Hmethods.
      apply for_each_returns. intros a s Hin. now apply good_method_returns, Hmethods. }
    destruct Hfirst as [ m1 -> ]. cbn [bind].
    rewrite forallb_forall in Hrest. rewrite Forall_forall in IH.
    apply for_each_returns. intros [key value] s Hin.
    specialize (IH (key, value) Hin). specialize (Hrest (key, value) Hin).
    cbn [snd] in IH. cbn beta iota in Hrest.
    destruct value; cbn [walk_value]; eauto.
  - cbn [well_formed] in Hwf. rewrite forallb_forall in Hwf. rewrite Forall_forall in IH.
    rewrite extract_list. apply for_each_returns. intros a s Hin. now apply IH, Hwf.
Qed.

(** *** Trees whose methods have one value of each code *)

Lemma length_flat_map_ones {A B : Type} (g : A -> list B) (l : list A) :
  (forall a, In a l -> length (g a) = 1) -> length (flat_map g l) = length l.
Proof.
  induction l as [ | a l IH ]; intros Hone; [ reflexivity | ].
  cbn [flat_map]. rewrite length_app, (Hone a (or_introl eq_refl)).
  cbn [length Nat.add]. f_equal. apply IH. intros x Hin. apply Hone. now right.
Qed.

Lemma one_of_each_length (method : node) (c : code) :
  one_of_each method = true -> length (method_values c method) = 1.
Proof.
  unfold one_of_each. rewrite forallb_forall. intros Hall.
  apply Nat.eqb_eq, Hall. destruct c; simpl; auto.
Qed.

Lemma uniform_length (t : node) (c : code) :
  uniform t = true -> length (code_values c t) = count_methods t.
Proof.
  induction t as [ | s | items IH | elems IH ] using node_ind; intros Huni;
    try reflexivity.
  - cbn [uniform] in Huni. apply andb_true_iff in Huni. destruct Huni as [ Hmethods Hrest ].
    cbn [code_values count_methods]. rewrite length_app. f_equal.
    + destruct (dict_lookup "Method" items) as [ methods | ]; [ | reflexivity ].
      rewrite forallb_forall in Hmethods.
      apply length_flat_map_ones. intros a Hin. now apply one_of_each_length, Hmethods.
    + clear Hmethods. induction items as [ | [key value] items IHitems ]; [ reflexivity | ].
      cbn [forallb] in Hrest. apply andb_true_iff in Hrest. destruct Hrest as [ Hv Hrest ].
      inversion IH as [ | ? ? Hvalue Hothers ]; subst.
      cbn [flat_map fold_right]. rewrite length_app. cbn [snd] in Hvalue.
      rewrite (Hvalue Hv). f_equal. now apply IHitems.
  - cbn [uniform] in Huni. cbn [code_values count_methods].
    induction elems as [ | x elems IHelems ]; [ reflexivity | ].
    cbn [forallb] in Huni. apply andb_true_iff in Huni. destruct Huni as [ Hx Huni ].
    inversion IH as [ | ? ? Hhead Hothers ]; subst.
    cbn [flat_map fold_right]. rewrite length_app, (Hhead Hx). f_equal. now apply IHelems.
Qed.

(** *** When the averages are computed *)

Lemma summarize_empty_vg (m : metrics) :
  mccabe_cyclomatic_complexity m = [] ->
  summarize m = Ok zero_results.
Proof. intros Hvg. unfold summarize. now rewrite Hvg. Qed.

Lemma summarize_all_filled (m : metrics) :
  mccabe_cyclomatic_complexity m <> [] ->
  system_complexity m <> [] ->
  data_complexity m <> [] ->
  total_lines_of_code m <> [] ->
  summarize m =
  Ok (mkResults (length (mccabe_cyclomatic_complexity m))
        (PyFloat (fdiv (fsum (mccabe_cyclomatic_complexity m))
                       (length (mccabe_cyclomatic_complexity m))))
        (PyFloat (fdiv (fsum (system_complexity m)) (length (system_complexity m))))
        (PyFloat (fdiv (fsum (data_complexity m)) (length (data_complexity m))))
        (PyFloat (fdiv (fsum (total_lines_of_code m)) (length (total_lines_of_code m))))).
Proof.
  unfold summarize. destruct m as [ vg ci di tloc ]. cbn.
  destruct vg; [ congruence | ]. destruct ci; [ congruence | ].
  destruct di; [ congruence | ]. destruct tloc; [ congruence | ]. reflexivity.
Qed.

Lemma summarize_some_empty (m : metrics) :
  mccabe_cyclomatic_complexity m <> [] ->
  system_complexity m = [] \/ data_complexity m = [] \/ total_lines_of_code m = [] ->
  summarize m = Raise ZeroDivisionError.
Proof.
  unfold summarize. destruct m as [ vg ci di tloc ]. cbn.
  destruct vg; [ congruence | ]. intros _ Hempty.
  destruct ci; [ reflexivity | ]. destruct di; [ reflexivity | ].
  destruct tloc; [ reflexivity | ].
  destruct Hempty as [ Hnil | [ Hnil | Hnil ] ]; discriminate Hnil.
Qed.

Lemma parse_inv (w : world) (xml_file : string) (r : results) (m : metrics) :
  parse_jasome_xml w xml_file = Ok (r, m) ->
  exists t,
    load w xml_file = Ok t /\
    extract_method_metrics t empty_metrics = Ok m /\
    summarize m = Ok r.
Proof.
  unfold parse_jasome_xml.
  destruct (load w xml_file) as [ t | e ]; cbn [bind]; [ | discriminate ].
  destruct (extract_method_metrics t empty_metrics) as [ m0 | e ] eqn:Hwalk; cbn [bind];
    [ | discriminate ].
  destruct (summarize m0) as [ r0 | e ] eqn:Hsum; cbn [bind]; [ | discriminate ].
  intros [= <- <-]. exists t. auto.
Qed.

(** A summary with a positive count comes from four lists with values. *)
Lemma summarize_positive (m : metrics) (r : results) :
  summarize m = Ok r ->
  (0 < total_methods r)%nat ->
  mccabe_cyclomatic_complexity m <> [] /\ system_complexity m <> [] /\
  data_complexity m <> [] /\ total_lines_of_code m <> [].
Proof.
  intros Hsum Hpos. rewrite (summarize_total m r Hsum) in Hpos.
  assert (Hvg : mccabe_cyclomatic_complexity m <> []).
  { intros Hnil. rewrite Hnil in Hpos. inversion Hpos. }
  destruct (system_complexity m) eqn:Hci;
    [ rewrite summarize_some_empty in Hsum; auto; discriminate | ].
  destruct (data_complexity m) eqn:Hdi;
    [ rewrite summarize_some_empty in Hsum; auto; discriminate | ].
  destruct (total_lines_of_code m) eqn:Htloc;
    [ rewrite summarize_some_empty in Hsum; auto; discriminate | ].
  repeat split; congruence.
Qed.

End Sound.

Section Edges.
Context `{Runtime}.

(** *** Methods on which the walk raises *)




(** *** The blocks of the additional statistics *)

Lemma display_metric_block (metric_name : string) (metric_values : list float) :
  metric_values <> [] ->
  ((1 < length metric_values)%nat -> exists sd, stdev metric_values = Ok sd) ->
  exists last,
    stdev_line last /\
    display_metric metric_name metric_values =
    (metric_block metric_name metric_values last, None).
Proof.
  intros Hfilled Hsd. unfold display_metric.
  destruct metric_values as [ | x xs ]; [ congruence | ].
  destruct (1 <? length (x :: xs))%nat eqn:Hlen.
  - apply Nat.ltb_lt in Hlen. destruct (Hsd Hlen) as [ sd -> ].
    exists (PrintNumber "  StdDev: " (PyFloat sd)). split; [ right; eauto | reflexivity ].
  - exists (Print "  StdDev: N/A"). split; [ now left | reflexivity ].
Qed.

Lemma display_results_full (r : results) (m : metrics) :
  (0 < total_methods r)%nat ->
  mccabe_cyclomatic_complexity m <> [] ->
  system_complexity m <> [] ->
  data_complexity m <> [] ->
  total_lines_of_code m <> [] ->
  stdev_returns m ->
  exists l1 l2 l3 l4,
    (stdev_line l1 /\ stdev_line l2 /\ stdev_line l3 /\ stdev_line l4) /\
    display_results r m =
    (display_header r ++ additional_heading ++
     metric_block "mccabe_cyclomatic_complexity" (mccabe_cyclomatic_complexity m) l1 ++
     metric_block "system_complexity" (system_complexity m) l2 ++
     metric_block "data_complexity" (data_complexity m) l3 ++
     metric_block "total_lines_of_code" (total_lines_of_code m) l4, None).
Proof.
  intros Hpos Hvg Hci Hdi Htloc Hsd.
  destruct (display_metric_block "mccabe_cyclomatic_complexity" _ Hvg) as (l1 & S1 & H1).
  { apply (Hsd "mccabe_cyclomatic_complexity"). left. reflexivity. }
  destruct (display_metric_block "system_complexity" _ Hci) as (l2 & S2 & H2).
  { apply (Hsd "system_complexity"). right. left. reflexivity. }
  destruct (display_metric_block "data_complexity" _ Hdi) as (l3 & S3 & H3).
  { apply (Hsd "data_complexity"). do 2 right. left. reflexivity. }
  destruct (display_metric_block "total_lines_of_code" _ Htloc) as (l4 & S4 & H4).
  { apply (Hsd "total_lines_of_code"). do 3 right. left. reflexivity. }
  exists l1, l2, l3, l4. split; [ auto | ]. unfold display_results.
  apply Nat.ltb_lt in Hpos. rewrite Hpos.
  unfold metrics_items. cbn [display_all]. rewrite H1, H2, H3, H4.
  cbn [app]. now rewrite app_nil_r.
Qed.

(** *** Lines of text *)

Lemma newlines_app (s1 s2 : string) :
  newlines (s1 ++ s2) = newlines s1 + newlines s2.
Proof.
  induction s1 as [ | c s1 IH ]; [ reflexivity | ].
  cbn [append newlines]. rewrite IH. apply Nat.add_assoc.
Qed.

Lemma newlines_digits (d : Decimal.uint) : newlines (NilEmpty.string_of_uint d) = 0.
Proof. induction d; cbn; auto. Qed.

Lemma newlines_str_of_nat (n : nat) : newlines (str_of_nat n) = 0.
Proof.
  unfold str_of_nat, NilZero.string_of_uint.
  destruct (Nat.to_uint n) eqn:Hd; try reflexivity; rewrite <- Hd; apply newlines_digits.
Qed.

Lemma report_lines_app (out1 out2 : list output) :
  report_lines (out1 ++ out2) = report_lines out1 + report_lines out2.
Proof.
  induction out1 as [ | o out1 IH ]; [ reflexivity | ].
  cbn [app report_lines fold_right]. fold (report_lines (out1 ++ out2)).
  fold (report_lines out1). rewrite IH. apply Nat.add_assoc.
Qed.

Lemma report_lines_header (r : results) : report_lines (display_header r) = 14.
Proof.
  unfold display_header. cbn [report_lines fold_right text_lines].
  rewrite !newlines_app, newlines_str_of_nat. reflexivity.
Qed.

Lemma report_lines_block (metric_name : string) (metric_values : list float)
  (last : output) :
  stdev_line last ->
  report_lines (metric_block metric_name metric_values last) =
  5 + newlines (nl ++ title (replace_underscore metric_name) ++ ":").
Proof.
  intros [ -> | (sd & ->) ]; unfold metric_block;
    cbn [report_lines fold_right text_lines];
    remember (newlines (nl ++ title (replace_underscore metric_name) ++ ":")) as k;
    cbn; lia.
Qed.

End Edges.

(** X1. The summary is returned exactly when the cyclomatic-complexity list
    is empty or the three other lists all have values; any exception of
    this step is ZeroDivisionError.  With an empty first list the summary
    is the initial one, whatever the other lists hold; otherwise the count
    is the length of the first list and each average is the sum of its
    list divided by its own length. *)
Theorem summarize_returns_iff `{Runtime} (m : metrics) :
  ((exists r, summarize m = Ok r) <->
   (mccabe_cyclomatic_complexity m = [] \/
    (system_complexity m <> [] /\ data_complexity m <> [] /\
     total_lines_of_code m <> []))) /\
  (forall e, summarize m = Raise e -> e = ZeroDivisionError) /\
  (mccabe_cyclomatic_complexity m = [] -> summarize m = Ok zero_results) /\
  (mccabe_cyclomatic_complexity m <> [] ->
   forall r, summarize m = Ok r ->
     r = mkResults (length (mccabe_cyclomatic_complexity m))
           (PyFloat (fdiv (fsum (mccabe_cyclomatic_complexity m))
                          (length (mccabe_cyclomatic_complexity m))))
           (PyFloat (fdiv (fsum (system_complexity m)) (length (system_complexity m))))
           (PyFloat (fdiv (fsum (data_complexity m)) (length (data_complexity m))))
           (PyFloat (fdiv (fsum (total_lines_of_code m))
                          (length (total_lines_of_code m))))).
Proof.
  assert (Hcases :
    mccabe_cyclomatic_complexity m = [] \/
    (mccabe_cyclomatic_complexity m <> [] /\
     (system_complexity m = [] \/ data_complexity m = [] \/ total_lines_of_code m = [])) \/
    (mccabe_cyclomatic_complexity m <> [] /\ system_complexity m <> [] /\
     data_complexity m <> [] /\ total_lines_of_code m <> [])).
  { destruct (mccabe_cyclomatic_complexity m); [ now left | right ].
    destruct (system_complexity m); [ left; split; [ discriminate | auto ] | ].
    destruct (data_complexity m); [ left; split; [ discriminate | auto ] | ].
    destruct (total_lines_of_code m); [ left; split; [ discriminate | auto ] | ].
    right. repeat split; discriminate. }
  destruct Hcases as [ Hvg | [ (Hvg & Hempty) | (Hvg & Hci & Hdi & Htloc) ] ].
  - rewrite (summarize_empty_vg m Hvg). repeat split; try discriminate; eauto.
    intros Hne. contradiction.
  - rewrite (summarize_some_empty m Hvg Hempty). repeat split; try discriminate.
    + intros (r & Hr). discriminate Hr.
    + intros [ Hnil | (Hci & Hdi & Htloc) ]; [ contradiction | ].
      destruct Hempty as [ Hnil | [ Hnil | Hnil ] ]; contradiction.
    + now intros e [= <-].
    + intros Hnil. contradiction.
  - rewrite (summarize_all_filled m Hvg Hci Hdi Htloc). repeat split; try discriminate;
      eauto.
    + intros Hnil. contradiction.
    + now intros _ r [= <-].
Qed.

Lemma summarize_returns_iff_witness :
  summarize Sample.metrics_ci_only = Ok zero_results.
Proof.
  refine (proj1 (proj2 (proj2 (@summarize_returns_iff Sample.runtime
            Sample.metrics_ci_only))) _).
  reflexivity.
Defined.

(** X2. When the walk returns with an empty cyclomatic-complexity list, the
    run reports a count of 0 and four averages of 0 and prints the header
    alone, also when the three other lists hold values: these values are
    neither averaged nor listed. *)
Theorem empty_vg_reports_zero `{Runtime} (w : world) (xml_file : string)
  (t : node) (m : metrics) :
  path_exists w xml_file = true ->
  load w xml_file = Ok t ->
  extract_method_metrics t empty_metrics = Ok m ->
  mccabe_cyclomatic_complexity m = [] ->
  parse_jasome_xml w xml_file = Ok (zero_results, m) /\
  main w xml_file = (display_header zero_results, Returned).
Proof.
  intros Hexists Hload Hwalk Hvg.
  assert (Hparse : parse_jasome_xml w xml_file = Ok (zero_results, m)).
  { unfold parse_jasome_xml. rewrite Hload. cbn [bind]. rewrite Hwalk. cbn [bind].
    now rewrite (summarize_empty_vg m Hvg). }
  split; [ exact Hparse | ].
  unfold main. now rewrite Hexists, Hparse.
Qed.

Lemma empty_vg_reports_zero_witness :
  parse_jasome_xml (Sample.one_file "report.xml" Sample.report_ci_only) "report.xml" =
  Ok (zero_results, Sample.metrics_ci_only) /\
  main (Sample.one_file "report.xml" Sample.report_ci_only) "report.xml" =
  (display_header zero_results, Returned).
Proof.
  refine (@empty_vg_reports_zero Sample.runtime
            (Sample.one_file "report.xml" Sample.report_ci_only) "report.xml"
            Sample.report_ci_only Sample.metrics_ci_only _ _ _ _); reflexivity.
Defined.

(** X3. A walk that returns has appended to each of the four lists exactly
    the values of its code that sit in metric entries of methods, each
    once, in the order of the document: at a dict the entries of its own
    methods first, then what its values hold, one value after the other.
    Nothing else of the tree gets into the lists. *)
Theorem walk_collects_exactly `{Runtime} (t : node) (m m' : metrics) :
  extract_method_metrics t m = Ok m' ->
  forall c, seq_of c m' = seq_of c m ++ code_values c t.
Proof. apply extract_exact. Qed.

Lemma walk_collects_exactly_witness :
  code_values TLOC Sample.report_two = [10%Z; 30%Z] /\
  seq_of TLOC Sample.metrics_two = seq_of TLOC empty_metrics ++ code_values TLOC Sample.report_two.
Proof.
  split; [ reflexivity | ].
  refine (@walk_collects_exactly Sample.runtime Sample.report_two empty_metrics
            Sample.metrics_two _ TLOC).
  reflexivity.
Defined.

(** X4. On a tree in which every method is a dict whose Metrics, if any, is
    a dict whose metric entries are dicts with, under a recognised name, a
    value float accepts (or no value), the walk raises nothing and returns
    the lists it was given followed by the values of the tree. *)
Theorem well_formed_report_extracts `{Runtime} (t : node) (m : metrics) :
  well_formed t = true ->
  exists m',
    extract_method_metrics t m = Ok m' /\
    forall c, seq_of c m' = seq_of c m ++ code_values c t.
Proof.
  intros Hwf. destruct (well_formed_returns t Hwf m) as [ m' Hrun ].
  exists m'. split; [ exact Hrun | ]. now apply extract_exact.
Qed.

Lemma well_formed_report_extracts_witness :
  well_formed Sample.report_two = true /\
  exists m',
    extract_method_metrics Sample.report_two empty_metrics = Ok m' /\
    forall c, seq_of c m' = seq_of c empty_metrics ++ code_values c Sample.report_two.
Proof.
  split; [ reflexivity | ].
  refine (@well_formed_report_extracts Sample.runtime Sample.report_two empty_metrics _).
  reflexivity.
Defined.

(** X5. For a well-formed report in which every method has exactly one
    value of each of the four codes, the run returns a summary, each of
    the four lists has one value per method, and the total method count is
    the number of methods. *)
Theorem uniform_report_counts_methods `{Runtime} (w : world) (xml_file : string)
  (t : node) :
  path_exists w xml_file = true ->
  load w xml_file = Ok t ->
  well_formed t = true ->
  uniform t = true ->
  exists r m,
    parse_jasome_xml w xml_file = Ok (r, m) /\
    total_methods r = count_methods t /\
    (forall c, length (seq_of c m) = count_methods t) /\
    exists rest, fst (main w xml_file) = display_header r ++ rest.
Proof.
  intros Hexists Hload Hwf Huni.
  destruct (well_formed_returns t Hwf empty_metrics) as [ m Hrun ].
  assert (Hlen : forall c, length (seq_of c m) = count_methods t).
  { intros c. rewrite (extract_exact t empty_metrics m Hrun c).
    rewrite length_app, (uniform_length t c Huni). now destruct c. }
  assert (Hsum : exists r, summarize m = Ok r).
  { destruct (mccabe_cyclomatic_complexity m) eqn:Hvg.
    - exists zero_results. now apply summarize_empty_vg.
    - eexists. apply summarize_all_filled.
      + rewrite Hvg. discriminate.
      + intros Hnil. pose proof (Hlen Ci) as Hci. pose proof (Hlen VG) as Hvg'.
        cbn [seq_of] in Hci, Hvg'. rewrite Hnil in Hci. rewrite Hvg in Hvg'.
        cbn [length] in Hci, Hvg'. congruence.
      + intros Hnil. pose proof (Hlen Di) as Hdi. pose proof (Hlen VG) as Hvg'.
        cbn [seq_of] in Hdi, Hvg'. rewrite Hnil in Hdi. rewrite Hvg in Hvg'.
        cbn [length] in Hdi, Hvg'. congruence.
      + intros Hnil. pose proof (Hlen TLOC) as Htloc. pose proof (Hlen VG) as Hvg'.
        cbn [seq_of] in Htloc, Hvg'. rewrite Hnil in Htloc. rewrite Hvg in Hvg'.
        cbn [length] in Htloc, Hvg'. congruence. }
  destruct Hsum as [ r Hsum ].
  assert (Hparse : parse_jasome_xml w xml_file = Ok (r, m)).
  { unfold parse_jasome_xml. rewrite Hload. cbn [bind]. rewrite Hrun. cbn [bind].
    now rewrite Hsum. }
  exists r, m. repeat split; [ exact Hparse | | exact Hlen | ].
  - rewrite (summarize_total m r Hsum). apply (Hlen VG).
  - now apply main_report_prefix with (m := m).
Qed.

Lemma uniform_report_counts_methods_witness :
  count_methods Sample.report_plain = 2 /\
  exists r m,
    parse_jasome_xml (Sample.one_file "report.xml" Sample.report_plain) "report.xml" =
    Ok (r, m) /\
    total_methods r = count_methods Sample.report_plain /\
    (forall c, length (seq_of c m) = count_methods Sample.report_plain) /\
    exists rest,
      fst (main (Sample.one_file "report.xml" Sample.report_plain) "report.xml") =
      display_header r ++ rest.
Proof.
  split; [ reflexivity | ].
  refine (@uniform_report_counts_methods Sample.runtime
            (Sample.one_file "report.xml" Sample.report_plain) "report.xml"
            Sample.report_plain _ _ _ _); reflexivity.
Defined.



(** X7. A run that gets a summary and in which statistics.stdev returns
    makes 12 print calls, which write 14 lines of text, when the count is
    0, and 34 print calls, which write 41 lines of text, otherwise: the
    header, the heading of the additional statistics and, for each of the
    four metrics in the order of the dict, its name, minimum, maximum,
    median and standard deviation (or N/A).  With a positive count none
    of the four blocks is skipped. *)
Theorem full_report_shape `{Runtime} (w : world) (xml_file : string)
  (r : results) (m : metrics) :
  path_exists w xml_file = true ->
  parse_jasome_xml w xml_file = Ok (r, m) ->
  stdev_returns m ->
  (total_methods r = 0 ->
   main w xml_file = (display_header r, Returned) /\
   length (fst (main w xml_file)) = 12 /\
   report_lines (fst (main w xml_file)) = 14) /\
  ((0 < total_methods r)%nat ->
   (exists l1 l2 l3 l4,
      (stdev_line l1 /\ stdev_line l2 /\ stdev_line l3 /\ stdev_line l4) /\
      main w xml_file =
      (display_header r ++ additional_heading ++
       metric_block "mccabe_cyclomatic_complexity" (mccabe_cyclomatic_complexity m) l1 ++
       metric_block "system_complexity" (system_complexity m) l2 ++
       metric_block "data_complexity" (data_complexity m) l3 ++
       metric_block "total_lines_of_code" (total_lines_of_code m) l4, Returned)) /\
   length (fst (main w xml_file)) = 34 /\
   report_lines (fst (main w xml_file)) = 41).
Proof.
  intros Hexists Hparse Hsd.
  destruct (parse_inv w xml_file r m Hparse) as (t & _ & _ & Hsum).
  unfold main. rewrite Hexists, Hparse. cbn [negb]. split.
  - intros Hzero. unfold display_results. rewrite Hzero. cbn [Nat.ltb Nat.leb fst].
    repeat split. apply report_lines_header.
  - intros Hpos.
    destruct (summarize_positive m r Hsum Hpos) as (Hvg & Hci & Hdi & Htloc).
    destruct (display_results_full r m Hpos Hvg Hci Hdi Htloc Hsd)
      as (l1 & l2 & l3 & l4 & (S1 & S2 & S3 & S4) & ->).
    split; [ exists l1, l2, l3, l4; auto | ]. split; [ reflexivity | ].
    cbn [fst]. rewrite !report_lines_app, report_lines_header.
    rewrite !report_lines_block by assumption. reflexivity.
Qed.

Lemma full_report_shape_witness :
  length (fst (main (Sample.one_file "report.xml" Sample.report_two) "report.xml")) = 34 /\
  report_lines (fst (main (Sample.one_file "report.xml" Sample.report_two) "report.xml")) = 41.
Proof.
  refine (proj2 (proj2 (@full_report_shape Sample.runtime
            (Sample.one_file "report.xml" Sample.report_two) "report.xml"
            Sample.results_two Sample.metrics_two _ _ _) _)).
  - reflexivity.
  - reflexivity.
  - intros name values _ _. eexists. reflexivity.
  - cbn. lia.
Defined.



(** X10. The total method count of a report is the number of VG values in
    metric entries of methods of the parsed tree: a method without a VG
    entry is not counted, and a method with two is counted twice. *)
Theorem total_methods_counts_vg_entries `{Runtime} (w : world) (xml_file : string)
  (t : node) (r : results) (m : metrics) :
  load w xml_file = Ok t ->
  parse_jasome_xml w xml_file = Ok (r, m) ->
  total_methods r = length (code_values VG t) /\
  mccabe_cyclomatic_complexity m = code_values VG t.
Proof.
  intros Hload Hparse.
  destruct (parse_inv w xml_file r m Hparse) as (t' & Hload' & Hwalk & Hsum).
  rewrite Hload in Hload'. injection Hload' as <-.
  pose proof (extract_exact t empty_metrics m Hwalk VG) as Hvg. cbn [seq_of app] in Hvg.
  split; [ | exact Hvg ].
  rewrite (summarize_total m r Hsum). now rewrite Hvg.
Qed.

Lemma total_methods_counts_vg_entries_witness :
  total_methods Sample.results_two = length (code_values VG Sample.report_two) /\
  mccabe_cyclomatic_complexity Sample.metrics_two = code_values VG Sample.report_two.
Proof.
  refine (@total_methods_counts_vg_entries Sample.runtime
            (Sample.one_file "report.xml" Sample.report_two) "report.xml"
            Sample.report_two Sample.results_two Sample.metrics_two _ _); reflexivity.
Defined.
